(** * Translation orchestration of [app.py]

    A shallow embedding of the logic of the Streamlit translation
    application: the resolver [perform_translation], the swap callback
    [swap_languages], the name-to-code dictionary [lang_codes], the
    interactive "Translate" handler with its session history, and the
    batch loop over a CSV column.

    A Python [str] is the [string] of the UTF-8 bytes of its text, a
    [float] is the exact value of the double, [None] is [option]'s
    [None], dictionaries are [gmap]s, and everything that
    touches the outside world (the googletrans service, the Streamlit
    widgets, [st.session_state]) goes through an explicit [World] that is
    threaded by a small state-and-exception monad.

    Three things are taken as the script finds them:
    - a googletrans call either answers or raises an [Exception], which
      is what [except Exception] catches;
    - the [LANGUAGES] table of googletrans and [str.title] are
      parameters of the script;
    - the row numbers and lengths of the progress bar stay below the
      size at which Python's division overflows. *)

From Stdlib Require Import String Ascii List Bool Arith Lia ZArith QArith.
From stdpp Require Import base option list gmap strings pretty.
Import ListNotations.

Local Open Scope string_scope.
Local Open Scope list_scope.

(** ** Python values *)

Module Py.

(** [str.isspace] on one code point: TAB, LF, VT, FF, CR, the
    separators U+001C to U+001F, SPACE, NEL, NBSP, U+1680, U+2000 to
    U+200A, U+2028, U+2029, U+202F, U+205F and U+3000. *)
Definition isspace (cp : N) : bool :=
  ((9 <=? cp) && (cp <=? 13) || (28 <=? cp) && (cp <=? 32)
   || (cp =? 133) || (cp =? 160) || (cp =? 5760)
   || (8192 <=? cp) && (cp <=? 8202) || (cp =? 8232) || (cp =? 8233)
   || (cp =? 8239) || (cp =? 8287) || (cp =? 12288))%N.

(** A continuation byte of UTF-8. *)
Definition continuation (b : N) : bool := ((128 <=? b) && (b <=? 191))%N.

(** The code point a sequence of one, two or three bytes encodes.
    (Four bytes encode U+10000 and above, where nothing is
    whitespace.) *)
Definition code1 (b1 : N) : option N :=
  if (b1 <? 128)%N then Some b1 else None.

Definition code2 (b1 b2 : N) : option N :=
  if ((194 <=? b1) && (b1 <=? 223))%N && continuation b2
  then Some ((b1 - 192) * 64 + (b2 - 128))%N
  else None.

Definition code3 (b1 b2 b3 : N) : option N :=
  let cp := ((b1 - 224) * 4096 + (b2 - 128) * 64 + (b3 - 128))%N in
  if ((224 <=? b1) && (b1 <=? 239))%N && continuation b2 && continuation b3
     && (2048 <=? cp)%N
  then Some cp
  else None.

Definition space_code (code : option N) : bool :=
  match code with
  | Some cp => isspace cp
  | None => false
  end.

(** [s.lstrip()]: the whitespace characters at the start are dropped,
    whether they take one, two or three bytes. *)
Fixpoint lstrip (s : string) : string :=
  match s with
  | EmptyString => EmptyString
  | String a1 s1 =>
      if space_code (code1 (N_of_ascii a1)) then lstrip s1
      else
        match s1 with
        | EmptyString => s
        | String a2 s2 =>
            if space_code (code2 (N_of_ascii a1) (N_of_ascii a2)) then lstrip s2
            else
              match s2 with
              | EmptyString => s
              | String a3 s3 =>
                  if space_code (code3 (N_of_ascii a1) (N_of_ascii a2) (N_of_ascii a3))
                  then lstrip s3
                  else s
              end
        end
  end.

(** Every character of the text is whitespace (true of the empty
    text): the texts [perform_translation] turns away. *)
Definition blank (s : string) : bool :=
  match lstrip s with
  | EmptyString => true
  | String _ _ => false
  end.

(** [s.rstrip()]: the text is cut where nothing but whitespace
    follows. *)
Fixpoint rstrip (s : string) : string :=
  match s with
  | EmptyString => EmptyString
  | String a rest => if blank s then EmptyString else String a (rstrip rest)
  end.

(** [s.strip()]: leading and trailing whitespace removed. *)
Definition strip (s : string) : string := rstrip (lstrip s).

(** Truth value of a [str]: only the empty string is falsy. *)
Definition truthy (s : string) : bool :=
  match s with
  | EmptyString => false
  | String _ _ => true
  end.

(** [a or b] where [a] is [None] or a [str] and [b] a [str]. *)
Definition or_else (a : option string) (b : string) : string :=
  match a with
  | Some s => if truthy s then s else b
  | None => b
  end.

(** [str(n)] for a non-negative [int]. *)
Definition str_of_nat (n : nat) : string := pretty n.

(** [2 ** e] for [e] from zero on, and one below. *)
Definition pow2 (e : Z) : Z := (2 ^ Z.max e 0)%Z.

(** The exponent [k] with [2 ** k <= a / b < 2 ** (k + 1)], for
    positive [a] and [b]. *)
Definition floor_log2 (a b : Z) : Z :=
  let d := (Z.log2 a - Z.log2 b)%Z in
  if (b * pow2 d <=? a * pow2 (- d))%Z then d else (d - 1)%Z.

(** [num / den] rounded to the nearest integer, a tie going to the even
    one. *)
Definition round_half_even (num den : Z) : Z :=
  let f := (num / den)%Z in
  let r := (num mod den)%Z in
  match (2 * r ?= den)%Z with
  | Lt => f
  | Gt => (f + 1)%Z
  | Eq => if Z.even f then f else (f + 1)%Z
  end.

(** The double [m * 2 ** e], as the reduced fraction of its value. *)
Definition float_of (m e : Z) : Q :=
  Qred ((m * pow2 e)%Z # Z.to_pos (pow2 (- e))).

(** [a / b] on an [int] [a >= 0] and an [int] [b > 0]: the double
    nearest to the quotient (53 significant bits, exponents from -1074
    on, ties to even).  Python raises [OverflowError] for a quotient of
    [2 ** 1024] or more, which is not modelled. *)
Definition int_truediv (a b : Z) : Q :=
  if (a =? 0)%Z then 0%Q
  else
    let e := Z.max (floor_log2 a b - 52) (-1074) in
    float_of (round_half_even (a * pow2 (- e)) (b * pow2 e)) e.
Arguments int_truediv : simpl never.

(** [a / b] on two non-negative [int]s; [None] stands for
    [ZeroDivisionError]. *)
Definition truediv (a b : nat) : option Q :=
  match b with
  | O => None
  | S _ => Some (int_truediv (Z.of_nat a) (Z.of_nat b))
  end.

(** A value read from a CSV column by pandas.  A float is carried by
    the text [str] gives for it (a missing value is the float whose
    text is ["nan"]). *)
Inductive cell : Type :=
| CellStr (s : string)
| CellInt (z : Z)
| CellBool (b : bool)
| CellFloat (repr : string).

(** [str(value)]. *)
Definition str (value : cell) : string :=
  match value with
  | CellStr s => s
  | CellInt z => pretty z
  | CellBool true => "True"
  | CellBool false => "False"
  | CellFloat repr => repr
  end.

(** A [dict] whose insertion order matters: the items in order, each
    key once. *)
Definition dict_get (d : list (string * string)) (key default : string) : string :=
  match List.find (fun item => String.eqb (fst item) key) d with
  | Some item => snd item
  | None => default
  end.

End Py.

(** ** The world outside the script *)

(** What a googletrans call hands back: a value, or an exception whose
    [str(e)] is [message]. *)
Inductive reply (A : Type) : Type :=
| Ok (value : A)
| Fails (message : string).
Arguments Ok {A} value.
Arguments Fails {A} message.

(** The cached [Translator()] object.  [P] is whatever state the service
    keeps between calls, so two calls on the same text may disagree.
    [detect] stands for [translator.detect(text).lang] and [translate]
    for [translator.translate(text, src=src, dest=dest).text]. *)
Record Translator (P : Type) : Type := {
  detect : string -> P -> reply string * P;
  translate : string -> string -> string -> P -> reply string * P
}.
Arguments detect {P} _ _ _.
Arguments translate {P} _ _ _ _ _.

(** One dictionary of [st.session_state.history]. *)
Record HistoryEntry : Type := {
  original : string;
  translated : string;
  source : string;
  target : string;
  timestamp : string
}.

(** [st.session_state]. *)
Record SessionState : Type := {
  history : list HistoryEntry;
  source_lang : string;
  target_lang : string
}.

Definition set_history (h : list HistoryEntry) (st : SessionState) : SessionState :=
  {| history := h; source_lang := source_lang st; target_lang := target_lang st |}.

Definition set_source_lang (name : string) (st : SessionState) : SessionState :=
  {| history := history st; source_lang := name; target_lang := target_lang st |}.

Definition set_target_lang (name : string) (st : SessionState) : SessionState :=
  {| history := history st; source_lang := source_lang st; target_lang := name |}.

(** The defaults the script installs on the first run of a session. *)
Definition initial_state : SessionState :=
  {| history := []; source_lang := "Automatic Detection"; target_lang := "urdu" |}.

(** Calls that leave the script, in the order they are made: the two
    provider calls and the Streamlit outputs of the handlers. *)
Inductive event : Type :=
| CallDetect (text : string)
| CallTranslate (text src dest : string)
| StError (body : string)
| StSuccess (body : string)
| StInfo (body : string)
| StSubheader (body : string)
| StCode (body : string)
| StDataframe (rows : list HistoryEntry)
| StProgress (value : Q) (text : string).

Record World (P : Type) : Type := {
  service : P;
  state : SessionState;
  trace : list event
}.
Arguments service {P} _.
Arguments state {P} _.
Arguments trace {P} _.

(** ** State and exceptions *)

Inductive outcome (E A : Type) : Type :=
| Returns (value : A)
| Raises (exception : E).
Arguments Returns {E A} value.
Arguments Raises {E A} exception.

Definition M (P E A : Type) : Type := World P -> outcome E A * World P.

Definition ret {P E A} (a : A) : M P E A := fun w => (Returns a, w).

Definition bind {P E A B} (c : M P E A) (k : A -> M P E B) : M P E B :=
  fun w =>
    match c w with
    | (Returns a, w') => k a w'
    | (Raises e, w') => (Raises e, w')
    end.

Definition raise {P E A} (e : E) : M P E A := fun w => (Raises e, w).

(** [try: body] with [except Exception as e: handler e]. *)
Definition try_except {P E E' A} (body : M P E A) (handler : E -> M P E' A)
  : M P E' A :=
  fun w =>
    match body w with
    | (Returns a, w') => (Returns a, w')
    | (Raises e, w') => handler e w'
    end.

Declare Scope py_scope.
Delimit Scope py_scope with py.
Notation "x <- c ;; k" := (bind c (fun x => k))
  (at level 100, c at next level, right associativity) : py_scope.
Notation "c ;; k" := (bind c (fun _ => k))
  (at level 100, right associativity) : py_scope.

Definition emit {P E} (ev : event) : M P E unit :=
  fun w => (Returns tt,
            {| service := service w; state := state w; trace := trace w ++ [ev] |}).

Definition get_state {P E} : M P E SessionState :=
  fun w => (Returns (state w), w).

Definition put_state {P E} (st : SessionState) : M P E unit :=
  fun w => (Returns tt, {| service := service w; state := st; trace := trace w |}).

(** A provider call: logged, answered by the service, and raised when
    the service fails. *)
Definition call_provider {P A} (ev : event) (f : P -> reply A * P)
  : M P string A :=
  fun w =>
    let '(r, p) := f (service w) in
    let w' := {| service := p; state := state w; trace := trace w ++ [ev] |} in
    match r with
    | Ok a => (Returns a, w')
    | Fails message => (Raises message, w')
    end.

(** Exceptions the script raises itself. *)
Inductive exn : Type :=
| KeyError (key : string)
| ZeroDivisionError.

(** [d[key]]. *)
Definition getitem {P} (d : gmap string string) (key : string) : M P exn string :=
  match d !! key with
  | Some v => ret v
  | None => raise (KeyError key)
  end.

Definition result {P E A} (r : outcome E A * World P) : outcome E A := fst r.
Definition world {P E A} (r : outcome E A * World P) : World P := snd r.

(** The events a run added to the trace it started from. *)
Definition added {P} (w w' : World P) : list event :=
  drop (length (trace w)) (trace w').

(** ** The script *)

Section Script.

Context {P : Type}.

(** The googletrans object, the [LANGUAGES] table of googletrans (its
    items in order, code first) and [str.title]. *)
Variable translator : Translator P.
Variable LANGUAGES : list (string * string).
Variable title : string -> string.

Local Open Scope py_scope.

Definition translator_detect (text : string) : M P string string :=
  call_provider (CallDetect text) (detect translator text).

Definition translator_translate (text src dest : string) : M P string string :=
  call_provider (CallTranslate text src dest) (translate translator text src dest).

(** [perform_translation(text, src, dest)]: the pair
    [(translation.text, src)], or [(None, None)]. *)
Definition perform_translation (text src dest : string)
  : M P exn (option string * option string) :=
  if negb (Py.truthy text) || negb (Py.truthy (Py.strip text)) then
    ret (None, None)
  else
    try_except
      (src <- (if String.eqb src "auto" then
                 detected_lang <- translator_detect text ;;
                 ret detected_lang
               else ret src) ;;
       translation <- translator_translate text src dest ;;
       ret (Some translation, Some src))
      (fun e =>
         emit (StError ("An error occurred: " +:+ e)) ;;
         ret (None, None)).

(** [swap_languages()], the [on_click] callback of the swap button. *)
Definition swap_languages (st : SessionState) : SessionState :=
  let '(source, target) := (source_lang st, target_lang st) in
  let st := set_source_lang target st in
  if negb (String.eqb source "Automatic Detection") then
    set_target_lang source st
  else st.

(** *** Interactive mode *)

Definition lang_values : list string := map snd LANGUAGES.

Definition lang_options : list string := "Automatic Detection" :: lang_values.

(** [{name: code for code, name in LANGUAGES.items()}] followed by the
    assignment of the ["Automatic Detection"] key. *)
Definition name_to_code : gmap string string :=
  fold_left (fun d item => <[snd item := fst item]> d) LANGUAGES ∅.

Definition lang_codes : gmap string string :=
  <["Automatic Detection" := "auto"]> name_to_code.

(** [st.session_state.history.append(entry)]. *)
Definition history_append (entry : HistoryEntry) : M P exn unit :=
  st <- get_state ;;
  put_state (set_history (history st ++ [entry]) st).

(** The body of [if st.button("Translate")], with the text of the input
    area and the clock reading [time.strftime] formats. *)
Definition on_translate (input_text now : string) : M P exn unit :=
  st <- get_state ;;
  src_code <- getitem lang_codes (source_lang st) ;;
  dest_code <- getitem lang_codes (target_lang st) ;;
  r <- perform_translation input_text src_code dest_code ;;
  let '(translated_text, detected_src_code) := r in
  match translated_text with
  | Some translated_text =>
      if Py.truthy translated_text then
        let detected_language_name :=
          title (match detected_src_code with
                 | Some code => Py.dict_get LANGUAGES code "Unknown"
                 | None => "Unknown"
                 end) in
        emit (StSuccess "Translation complete!") ;;
        (if String.eqb src_code "auto" then
           emit (StInfo ("Detected Source Language: **" +:+ detected_language_name +:+ "**"))
         else ret tt) ;;
        emit (StSubheader "Translated Text:") ;;
        emit (StCode translated_text) ;;
        st <- get_state ;;
        history_append {| original := input_text;
                          translated := translated_text;
                          source := source_lang st;
                          target := target_lang st;
                          timestamp := now |}
      else ret tt
  | None => ret tt
  end.

(** [pd.DataFrame(history).iloc[::-1]]: a reversed copy. *)
Definition newest_first (h : list HistoryEntry) : list HistoryEntry := rev h.

(** [st.session_state.history = []]. *)
Definition history_clear : M P exn unit :=
  st <- get_state ;;
  put_state (set_history [] st).

(** The history block under the input area.  [clear_clicked] tells
    whether this run was started by the "Clear History" button;
    [st.rerun()] then starts the script again and is the end of this
    run. *)
Definition show_history (clear_clicked : bool) : M P exn unit :=
  st <- get_state ;;
  match history st with
  | [] => ret tt
  | _ :: _ =>
      emit (StDataframe (newest_first (history st))) ;;
      if clear_clicked then history_clear else ret tt
  end.

(** What the user can do on the interactive page; each starts one run of
    the script. *)
Inductive action : Type :=
| SelectSource (name : string)
| SelectTarget (name : string)
| ClickSwap
| ClickTranslate (input_text now : string)
| ClickClear.

(** One run of the interactive page.  A select box only offers its
    options. *)
Definition interactive_run (a : action) : M P exn unit :=
  match a with
  | SelectSource name =>
      st <- get_state ;;
      (if bool_decide (name ∈ lang_options) then put_state (set_source_lang name st)
       else ret tt) ;;
      show_history false
  | SelectTarget name =>
      st <- get_state ;;
      (if bool_decide (name ∈ lang_values) then put_state (set_target_lang name st)
       else ret tt) ;;
      show_history false
  | ClickSwap =>
      st <- get_state ;;
      put_state (swap_languages st) ;;
      show_history false
  | ClickTranslate input_text now =>
      on_translate input_text now ;;
      show_history false
  | ClickClear => show_history true
  end.

(** A session: the runs one after the other.  An exception ends its run
    and leaves the session as the run left it. *)
Definition session (actions : list action) (w : World P) : World P :=
  fold_left (fun w a => world (interactive_run a w)) actions w.

(** *** Batch mode *)

(** The [for i, text in enumerate(df[text_column])] loop, from row [i]
    on; [n] is [len(df)]. *)
Fixpoint translate_rows (n : nat) (dest_code : string) (i : nat)
    (rows : list Py.cell) (translations : list string)
  : M P exn (list string) :=
  match rows with
  | [] => ret translations
  | text :: rows =>
      r <- perform_translation (Py.str text) "auto" dest_code ;;
      let '(translated, _) := r in
      let translations := translations ++ [Py.or_else translated "Error"] in
      match Py.truediv (i + 1) n with
      | Some value =>
          emit (StProgress value
                  ("Translating row " +:+ Py.str_of_nat (i + 1) +:+ "/"
                   +:+ Py.str_of_nat n))
      | None => raise ZeroDivisionError
      end ;;
      translate_rows n dest_code (S i) rows translations
  end.

(** The body of [if st.button("Translate File")] up to the success
    message; the value is the new column of [df], its name and its
    cells. *)
Definition translate_file (column : list Py.cell) (dest_code : string)
  : M P exn (string * list string) :=
  emit (StProgress 0 "Translating...") ;;
  translations <- translate_rows (length column) dest_code 0 column [] ;;
  emit (StSuccess "Batch translation completed!") ;;
  ret ("translated_" +:+ dest_code, translations).

End Script.

(** ** Observations on a run *)

(** Events [perform_translation] can add: provider calls and error
    messages, never a success message, a table or a progress report. *)
Definition quiet (ev : event) : Prop :=
  match ev with
  | StProgress _ _ | StSuccess _ | StDataframe _ => False
  | _ => True
  end.

(** The progress reports of a trace, in order. *)
Definition progress_reports (evs : list event) : list (Q * string) :=
  omap (fun ev => match ev with
                  | StProgress value text => Some (value, text)
                  | _ => None
                  end) evs.

(** The report the batch loop makes once row [i] (counted from one) of
    [n] is done. *)
Definition row_report (n i : nat) : Q * string :=
  (Py.int_truediv (Z.of_nat i) (Z.of_nat n),
   "Translating row " +:+ Py.str_of_nat i +:+ "/" +:+ Py.str_of_nat n).

(** The world after one more event. *)
Definition after {P} (w : World P) (ev : event) : World P :=
  {| service := service w; state := state w; trace := trace w ++ [ev] |}.

(** The session after a list of entries was appended one by one. *)
Definition appended {P} (entries : list HistoryEntry) (w : World P) : World P :=
  fold_left (fun w e => world (history_append e w)) entries w.

(** The world of a batch once the first [i] rows of the column are
    done. *)
Definition rows_done {P} (tr : Translator P) (column : list Py.cell)
    (dest_code : string) (i : nat) (w : World P) : World P :=
  world (translate_rows tr (length column) dest_code 0 (take i column) []
           (after w (StProgress 0 "Translating..."))).

(** No entry of the history holds an empty translation. *)
Definition translations_kept (h : list HistoryEntry) : Prop :=
  Forall (fun e => translated e <> "") h.

(** ** Sample collaborators *)

(** Four rows of the googletrans table. *)
Definition sample_languages : list (string * string) :=
  [("en", "english"); ("fr", "french"); ("es", "spanish"); ("ur", "urdu")].

(** A service that detects English and hands every text back. *)
Definition echo_translator : Translator unit :=
  {| detect := fun _ p => (Ok "en", p);
     translate := fun text _ _ p => (Ok text, p) |}.

(** A service that cannot be reached; it counts the attempts. *)
Definition unreachable_translator : Translator nat :=
  {| detect := fun _ p => (Fails "timed out", S p);
     translate := fun _ _ _ p => (Fails "timed out", S p) |}.

(** A service that detects English and then fails to translate. *)
Definition detect_only_translator : Translator unit :=
  {| detect := fun _ p => (Ok "en", p);
     translate := fun _ _ _ p => (Fails "quota exceeded", p) |}.

(** A service whose translations come back empty. *)
Definition silent_translator : Translator unit :=
  {| detect := fun _ p => (Ok "en", p);
     translate := fun _ _ _ p => (Ok "", p) |}.

(** A two-word English phrase book. *)
Definition phrasebook_translator : Translator unit :=
  {| detect := fun _ p => (Ok "en", p);
     translate := fun text _ _ p =>
       if String.eqb text "hello" then (Ok "hola", p)
       else if String.eqb text "world" then (Ok "mundo", p)
       else (Fails "no translation", p) |}.

(** [str.title] on one lower-case ASCII word. *)
Definition ascii_title (s : string) : string :=
  match s with
  | EmptyString => EmptyString
  | String c rest =>
      let n := nat_of_ascii c in
      String (if (97 <=? n)%nat && (n <=? 122)%nat then ascii_of_nat (n - 32) else c) rest
  end.

(** A service that answers ["auto"] when asked for the language. *)
Definition undecided_translator : Translator unit :=
  {| detect := fun _ p => (Ok "auto", p);
     translate := fun text _ _ p => (Ok text, p) |}.

(** IDEOGRAPHIC SPACE (U+3000) and NO-BREAK SPACE (U+00A0), in UTF-8. *)
Definition ideographic_space : string :=
  String "227" (String "128" (String "128" EmptyString)).

Definition no_break_space : string :=
  String "194" (String "160" EmptyString).

(** The first run of a session. *)
Definition fresh_world {P} (p : P) : World P :=
  {| service := p; state := initial_state; trace := [] |}.

Definition entry (text out : string) : HistoryEntry :=
  {| original := text; translated := out; source := "english";
     target := "french"; timestamp := "2024-01-01 00:00:00" |}.

(** The provider calls among some events. *)
Definition is_call (ev : event) : bool :=
  match ev with
  | CallDetect _ | CallTranslate _ _ _ => true
  | _ => false
  end.

Definition provider_calls (evs : list event) : list event := List.filter is_call evs.

Definition is_error (ev : event) : bool :=
  match ev with
  | StError _ => true
  | _ => false
  end.

(** A provider call that passes on what [perform_translation] was
    given: the text as it is, the target code, the source code when one
    was named, and detection only when the source is ["auto"]. *)
Definition as_given (text src dest : string) (ev : event) : Prop :=
  match ev with
  | CallDetect t => t = text /\ src = "auto"
  | CallTranslate t s d => t = text /\ d = dest /\ (src <> "auto" -> s = src)
  | _ => True
  end.

(** A call that does not translate into the sentinel ["auto"]. *)
Definition real_target (ev : event) : Prop :=
  match ev with
  | CallTranslate _ _ d => d <> "auto"
  | _ => True
  end.

(** Both selections are options of their select boxes. *)
Definition valid_selection (LANGUAGES : list (string * string)) (st : SessionState)
  : Prop :=
  source_lang st ∈ lang_options LANGUAGES /\ target_lang st ∈ lang_values LANGUAGES.

(** The batch page from the lookup of the target code on, inside its
    [try] block (the [except] clause around it, which reports whatever
    is raised, is not part of it): the dictionary built there has no
    ["Automatic Detection"] key. *)
Definition batch_page {P} (tr : Translator P) (LANGUAGES : list (string * string))
    (target_lang_name : string) (column : list Py.cell)
  : M P exn (string * list string) :=
  bind (getitem (name_to_code LANGUAGES) target_lang_name)
       (fun dest_code => translate_file tr column dest_code).

(** What a row of a batch gets from a service that keeps no state. *)
Definition row_outcome (tr : Translator unit) (dest_code : string) (text : Py.cell)
  : string :=
  match result (perform_translation tr (Py.str text) "auto" dest_code (fresh_world tt)) with
  | Returns r => Py.or_else (fst r) "Error"
  | Raises _ => "Error"
  end.

(** A provider call of a batch: about the text of a cell of the
    column, and into the target code of the batch. *)
Definition from_column (column : list Py.cell) (dest_code : string) (ev : event) : Prop :=
  match ev with
  | CallDetect t => exists c, c ∈ column /\ Py.str c = t
  | CallTranslate t _ d => (exists c, c ∈ column /\ Py.str c = t) /\ d = dest_code
  | _ => True
  end.

(** A service that detects a language the sample table does not
    list. *)
Definition klingon_translator : Translator unit :=
  {| detect := fun _ p => (Ok "tlh", p);
     translate := fun _ _ _ p => (Ok "nuqneH", p) |}.

(** An event that has nothing to do with detection: neither the
    provider call nor the announcement of its answer. *)
Definition no_detection (ev : event) : Prop :=
  match ev with
  | CallDetect _ | StInfo _ => False
  | _ => True
  end.

(** Two codes under one name. *)
Definition twin_languages : list (string * string) :=
  [("iw", "hebrew"); ("en", "english"); ("he", "hebrew")].

(** ** Python strings *)

Example strip_both_ends : Py.strip "  hola mundo   " = "hola mundo".
Proof. reflexivity. Qed.

Example strip_newline :
  Py.strip (String (ascii_of_nat 9) ("ok " +:+ String (ascii_of_nat 10) ""))
  = "ok".
Proof. reflexivity. Qed.

Example strip_spaces : Py.strip "   " = "".
Proof. reflexivity. Qed.

Example strip_wide :
  Py.strip (ideographic_space +:+ "hola" +:+ no_break_space +:+ "mundo "
            +:+ no_break_space +:+ ideographic_space)
  = "hola" +:+ no_break_space +:+ "mundo".
Proof. reflexivity. Qed.

Example blank_wide :
  Py.blank (ideographic_space +:+ " " +:+ no_break_space) = true.
Proof. reflexivity. Qed.

Example isspace_table :
  forallb Py.isspace
    [9; 10; 11; 12; 13; 28; 29; 30; 31; 32; 133; 160; 5760; 8192; 8202;
     8232; 8233; 8239; 8287; 12288]%N = true
  /\ forallb (fun cp => negb (Py.isspace cp))
       [8; 14; 27; 33; 65; 134; 161; 6158; 8203; 8288; 12289; 65279]%N = true.
Proof. split; reflexivity. Qed.

(** OGHAM SPACE MARK, EN QUAD, HAIR SPACE, LINE SEPARATOR, NARROW
    NO-BREAK SPACE and MEDIUM MATHEMATICAL SPACE are stripped; ZERO
    WIDTH SPACE (U+200B) and a letter with an accent are not. *)
Example blank_three_bytes :
  Py.blank (String "225" (String "154" (String "128"
           (String "226" (String "128" (String "128"
           (String "226" (String "128" (String "138"
           (String "226" (String "128" (String "168"
           (String "226" (String "128" (String "175"
           (String "226" (String "129" (String "159" "")))))))))))))))))) = true
  /\ Py.blank (String "226" (String "128" (String "139" ""))) = false
  /\ Py.strip (" " +:+ String "195" (String "169" " ")) = String "195" (String "169" "").
Proof. repeat split. Qed.

Example or_else_empty : Py.or_else (Some "") "Error" = "Error".
Proof. reflexivity. Qed.

Example str_of_nat_12 : Py.str_of_nat 12 = "12".
Proof. reflexivity. Qed.

(** [lstrip] takes one whitespace character off at a time. *)
Lemma lstrip_cases (s : string) :
  Py.lstrip s = s
  \/ exists r, String.length r < String.length s /\ Py.lstrip s = Py.lstrip r.
Proof.
  destruct s as [|a1 [|a2 [|a3 s3]]]; simpl.
  - now left.
  - destruct (Py.space_code (Py.code1 (N_of_ascii a1))); [|now left].
    right. exists "". split; [simpl; lia | reflexivity].
  - destruct (Py.space_code (Py.code1 (N_of_ascii a1))).
    { right. exists (String a2 ""). split; [simpl; lia | reflexivity]. }
    destruct (Py.space_code (Py.code2 (N_of_ascii a1) (N_of_ascii a2))); [|now left].
    right. exists "". split; [simpl; lia | reflexivity].
  - destruct (Py.space_code (Py.code1 (N_of_ascii a1))).
    { right. exists (String a2 (String a3 s3)). split; [simpl; lia | reflexivity]. }
    destruct (Py.space_code (Py.code2 (N_of_ascii a1) (N_of_ascii a2))).
    { right. exists (String a3 s3). split; [simpl; lia | reflexivity]. }
    destruct (Py.space_code
                (Py.code3 (N_of_ascii a1) (N_of_ascii a2) (N_of_ascii a3)));
      [|now left].
    right. exists s3. split; [simpl; lia | reflexivity].
Qed.

Lemma lstrip_idempotent (s : string) : Py.lstrip (Py.lstrip s) = Py.lstrip s.
Proof.
  remember (String.length s) as n eqn:Hn. revert s Hn.
  induction n as [n IH] using lt_wf_ind. intros s ->.
  destruct (lstrip_cases s) as [H | (r & Hlt & H)].
  - now rewrite !H.
  - rewrite H. now apply (IH (String.length r)).
Qed.

Lemma rstrip_empty_iff (s : string) : Py.rstrip s = "" <-> Py.blank s = true.
Proof.
  destruct s as [|a rest]; [now split|].
  simpl Py.rstrip. destruct (Py.blank (String a rest)); split; congruence.
Qed.

Lemma blank_lstrip (s : string) : Py.blank (Py.lstrip s) = Py.blank s.
Proof. unfold Py.blank. now rewrite lstrip_idempotent. Qed.

(** [strip] leaves nothing exactly when the text is blank. *)
Lemma strip_empty_iff (s : string) : Py.strip s = "" <-> Py.blank s = true.
Proof. unfold Py.strip. now rewrite rstrip_empty_iff, blank_lstrip. Qed.

Lemma truthy_false (s : string) : Py.truthy s = false <-> s = "".
Proof. destruct s; simpl; split; congruence. Qed.

(** The guard [not text or not text.strip()]. *)
Lemma guard_blank (text : string) :
  negb (Py.truthy text) || negb (Py.truthy (Py.strip text)) = Py.blank text.
Proof.
  destruct (Py.blank text) eqn:Hb.
  - apply strip_empty_iff in Hb. rewrite Hb. simpl. apply orb_true_r.
  - destruct text as [|c rest]; [vm_compute in Hb; discriminate|]. simpl negb at 1.
    destruct (Py.strip (String c rest)) eqn:Hs; [|reflexivity].
    apply strip_empty_iff in Hs. congruence.
Qed.

Lemma empty_or_stripped_blank (text : string) :
  text = "" \/ Py.strip text = "" <-> Py.blank text = true.
Proof.
  rewrite strip_empty_iff. split; [|auto].
  intros [->|H]; [reflexivity | exact H].
Qed.

(** ** The resolver *)

Section Resolver.

Context {P : Type} (tr : Translator P).

Ltac run :=
  unfold perform_translation, try_except, bind, ret, emit, raise,
    translator_detect, translator_translate, call_provider; simpl.

Lemma perform_translation_blank text src dest (w : World P) :
  Py.blank text = true ->
  perform_translation tr text src dest w = (Returns (None, None), w).
Proof.
  intros Hb. unfold perform_translation. rewrite guard_blank, Hb. reflexivity.
Qed.

Lemma perform_translation_detected text dest (w : World P) code p1 out p2 :
  Py.blank text = false ->
  detect tr text (service w) = (Ok code, p1) ->
  translate tr text code dest p1 = (Ok out, p2) ->
  perform_translation tr text "auto" dest w =
    (Returns (Some out, Some code),
     {| service := p2; state := state w;
        trace := trace w ++ [CallDetect text; CallTranslate text code dest] |}).
Proof.
  intros Hb Hd Ht. unfold perform_translation. rewrite guard_blank, Hb.
  run. rewrite Hd. simpl. rewrite Ht. simpl.
  rewrite <- app_assoc. reflexivity.
Qed.

Lemma perform_translation_detect_fails text dest (w : World P) message p1 :
  Py.blank text = false ->
  detect tr text (service w) = (Fails message, p1) ->
  perform_translation tr text "auto" dest w =
    (Returns (None, None),
     {| service := p1; state := state w;
        trace := trace w ++ [CallDetect text;
                             StError ("An error occurred: " +:+ message)] |}).
Proof.
  intros Hb Hd. unfold perform_translation. rewrite guard_blank, Hb.
  run. rewrite Hd. simpl. rewrite <- app_assoc. reflexivity.
Qed.

Lemma perform_translation_detected_fails text dest (w : World P) code p1 message p2 :
  Py.blank text = false ->
  detect tr text (service w) = (Ok code, p1) ->
  translate tr text code dest p1 = (Fails message, p2) ->
  perform_translation tr text "auto" dest w =
    (Returns (None, None),
     {| service := p2; state := state w;
        trace := trace w ++ [CallDetect text; CallTranslate text code dest;
                             StError ("An error occurred: " +:+ message)] |}).
Proof.
  intros Hb Hd Ht. unfold perform_translation. rewrite guard_blank, Hb.
  run. rewrite Hd. simpl. rewrite Ht. simpl.
  rewrite <- !app_assoc. reflexivity.
Qed.

Lemma perform_translation_given text src dest (w : World P) out p1 :
  Py.blank text = false ->
  src <> "auto" ->
  translate tr text src dest (service w) = (Ok out, p1) ->
  perform_translation tr text src dest w =
    (Returns (Some out, Some src),
     {| service := p1; state := state w;
        trace := trace w ++ [CallTranslate text src dest] |}).
Proof.
  intros Hb Hs Ht. unfold perform_translation. rewrite guard_blank, Hb.
  apply String.eqb_neq in Hs. rewrite Hs.
  run. rewrite Ht. reflexivity.
Qed.

Lemma perform_translation_given_fails text src dest (w : World P) message p1 :
  Py.blank text = false ->
  src <> "auto" ->
  translate tr text src dest (service w) = (Fails message, p1) ->
  perform_translation tr text src dest w =
    (Returns (None, None),
     {| service := p1; state := state w;
        trace := trace w ++ [CallTranslate text src dest;
                             StError ("An error occurred: " +:+ message)] |}).
Proof.
  intros Hb Hs Ht. unfold perform_translation. rewrite guard_blank, Hb.
  apply String.eqb_neq in Hs. rewrite Hs.
  run. rewrite Ht. simpl. rewrite <- app_assoc. reflexivity.
Qed.

(** The shapes a call can end in: it returns, with nothing or with a
    translation and its source code; it leaves the session state alone
    and adds provider calls and at most an error message to the trace. *)
Lemma perform_translation_shape text src dest (w : World P) :
  exists r w' evs,
    perform_translation tr text src dest w = (Returns r, w') /\
    state w' = state w /\
    trace w' = trace w ++ evs /\
    Forall quiet evs /\
    (r = (None, None) \/ exists out code, r = (Some out, Some code)).
Proof.
  destruct (Py.blank text) eqn:Hb.
  - exists (None, None), w, []. rewrite perform_translation_blank by exact Hb.
    rewrite app_nil_r. repeat split; auto.
  - destruct (String.eqb_spec src "auto") as [->|Hs].
    + destruct (detect tr text (service w)) as [[code|message] p1] eqn:Hd.
      * destruct (translate tr text code dest p1) as [[out|message] p2] eqn:Ht.
        -- erewrite perform_translation_detected by eassumption.
           do 3 eexists. repeat split; simpl; eauto.
           repeat constructor.
        -- erewrite perform_translation_detected_fails by eassumption.
           do 3 eexists. repeat split; simpl; eauto.
           repeat constructor.
      * erewrite perform_translation_detect_fails by eassumption.
        do 3 eexists. repeat split; simpl; eauto.
        repeat constructor.
    + destruct (translate tr text src dest (service w)) as [[out|message] p1] eqn:Ht.
      * erewrite perform_translation_given by eassumption.
        do 3 eexists. repeat split; simpl; eauto.
        repeat constructor.
      * erewrite perform_translation_given_fails by eassumption.
        do 3 eexists. repeat split; simpl; eauto.
        repeat constructor.
Qed.

End Resolver.

Lemma added_nothing {P} (w : World P) : added w w = [].
Proof. unfold added. apply drop_all. Qed.

Lemma added_app {P} (w w' : World P) evs :
  trace w' = trace w ++ evs -> added w w' = evs.
Proof. unfold added. intros ->. apply drop_app_length. Qed.

(** *** Claims about the resolver *)

(** C2, as stated, fails twice.  At a text of one space: the text is
    not empty and the service would detect English, yet
    [perform_translation] returns [(None, None)] and the world is
    untouched, so [detect] was never called.  And against a service
    that answers ["auto"] when asked for the language: the call
    succeeds and the source code it returns is ["auto"]. *)
Lemma perform_translation_auto_space :
  (" " <> ""
   /\ detect echo_translator " " tt = (Ok "en", tt)
   /\ translate echo_translator " " "en" "fr" tt = (Ok " ", tt)
   /\ perform_translation echo_translator " " "auto" "fr" (fresh_world tt)
      = (Returns (None, None), fresh_world tt))
  /\ ("hello" <> ""
      /\ result (perform_translation undecided_translator "hello" "auto" "fr"
                   (fresh_world tt))
         = Returns (Some "hello", Some "auto")).
Proof. repeat split; discriminate. Qed.

(** C2 (amended): for every text that is not blank (not empty and not
    made of whitespace only) and source code ["auto"],
    [perform_translation] first calls [detect] on the text and then
    [translate] with the detected code as source; when both succeed it
    returns the provider's translation together with the detected code,
    and when detection fails it reports the failure, makes no
    [translate] call and returns [(None, None)].  The source code
    returned is ["auto"] only when the provider itself answered
    ["auto"] to [detect]. *)
Theorem perform_translation_auto {P} (tr : Translator P) text dest (w : World P) :
  Py.blank text = false ->
  (forall code p1 out p2,
      detect tr text (service w) = (Ok code, p1) ->
      translate tr text code dest p1 = (Ok out, p2) ->
      perform_translation tr text "auto" dest w =
        (Returns (Some out, Some code),
         {| service := p2; state := state w;
            trace := trace w ++ [CallDetect text; CallTranslate text code dest] |}))
  /\
  (forall message p1,
      detect tr text (service w) = (Fails message, p1) ->
      perform_translation tr text "auto" dest w =
        (Returns (None, None),
         {| service := p1; state := state w;
            trace := trace w ++ [CallDetect text;
                                 StError ("An error occurred: " +:+ message)] |}))
  /\
  (forall r,
      result (perform_translation tr text "auto" dest w) = Returns r ->
      snd r = Some "auto" ->
      fst (detect tr text (service w)) = Ok "auto").
Proof.
  intros Hb. split; [|split].
  - intros code p1 out p2 Hd Ht.
    now apply perform_translation_detected with (p1 := p1).
  - intros message p1 Hd.
    now apply perform_translation_detect_fails.
  - intros r Hr Hauto.
    destruct (detect tr text (service w)) as [[code|message] p1] eqn:Hd.
    + destruct (translate tr text code dest p1) as [[out|message] p2] eqn:Ht.
      * rewrite (perform_translation_detected tr _ _ _ _ _ _ _ Hb Hd Ht) in Hr.
        injection Hr as <-. simpl in Hauto. now injection Hauto as ->.
      * rewrite (perform_translation_detected_fails tr _ _ _ _ _ _ _ Hb Hd Ht) in Hr.
        injection Hr as <-. discriminate.
    + rewrite (perform_translation_detect_fails tr _ _ _ _ _ Hb Hd) in Hr.
      injection Hr as <-. discriminate.
Qed.

Lemma perform_translation_auto_witness :
  Py.blank "hello" = false /\
  perform_translation echo_translator "hello" "auto" "fr" (fresh_world tt) =
    (Returns (Some "hello", Some "en"),
     {| service := tt; state := initial_state;
        trace := [CallDetect "hello"; CallTranslate "hello" "en" "fr"] |}).
Proof.
  split; [reflexivity|].
  exact (proj1 (perform_translation_auto echo_translator "hello" "fr"
                  (fresh_world tt) eq_refl)
           "en" tt "hello" tt eq_refl eq_refl).
Defined.

(** C4: for every text that is empty, or empty once stripped, and for
    every source and target code, [perform_translation] returns
    [(None, None)] at once: the world it returns is the world it was
    given, so no provider call was made and nothing was reported. *)
Theorem perform_translation_empty {P} (tr : Translator P) text src dest (w : World P) :
  text = "" \/ Py.strip text = "" ->
  perform_translation tr text src dest w = (Returns (None, None), w) /\
  added w (world (perform_translation tr text src dest w)) = [].
Proof.
  intros H. apply empty_or_stripped_blank in H.
  rewrite perform_translation_blank by exact H.
  split; [reflexivity | apply added_nothing].
Qed.

Lemma perform_translation_empty_witness :
  (Py.strip "   " = "" /\
   perform_translation echo_translator "   " "auto" "fr" (fresh_world tt)
   = (Returns (None, None), fresh_world tt))
  /\
  (Py.strip (ideographic_space +:+ no_break_space) = "" /\
   perform_translation echo_translator (ideographic_space +:+ no_break_space)
     "en" "fr" (fresh_world tt)
   = (Returns (None, None), fresh_world tt)).
Proof.
  split; (split; [reflexivity|]).
  - exact (proj1 (perform_translation_empty echo_translator "   " "auto" "fr"
                    (fresh_world tt) (or_intror eq_refl))).
  - exact (proj1 (perform_translation_empty echo_translator
                    (ideographic_space +:+ no_break_space) "en" "fr"
                    (fresh_world tt) (or_intror eq_refl))).
Defined.

(** C5: [perform_translation] always returns and never raises; and
    whenever the [detect] call or the [translate] call it makes fails,
    the failure is reported through [st.error] and the result is
    [(None, None)]. *)
Theorem perform_translation_catches {P} (tr : Translator P) text src dest (w : World P) :
  (exists r w', perform_translation tr text src dest w = (Returns r, w'))
  /\
  (forall message p1,
      Py.blank text = false -> src = "auto" ->
      detect tr text (service w) = (Fails message, p1) ->
      perform_translation tr text src dest w =
        (Returns (None, None),
         {| service := p1; state := state w;
            trace := trace w ++ [CallDetect text;
                                 StError ("An error occurred: " +:+ message)] |}))
  /\
  (forall code p1 message p2,
      Py.blank text = false -> src = "auto" ->
      detect tr text (service w) = (Ok code, p1) ->
      translate tr text code dest p1 = (Fails message, p2) ->
      perform_translation tr text src dest w =
        (Returns (None, None),
         {| service := p2; state := state w;
            trace := trace w ++ [CallDetect text; CallTranslate text code dest;
                                 StError ("An error occurred: " +:+ message)] |}))
  /\
  (forall message p1,
      Py.blank text = false -> src <> "auto" ->
      translate tr text src dest (service w) = (Fails message, p1) ->
      perform_translation tr text src dest w =
        (Returns (None, None),
         {| service := p1; state := state w;
            trace := trace w ++ [CallTranslate text src dest;
                                 StError ("An error occurred: " +:+ message)] |})).
Proof.
  split; [|split; [|split]].
  - destruct (perform_translation_shape tr text src dest w)
      as (r & w' & _ & H & _). eauto.
  - intros message p1 Hb -> Hd. now apply perform_translation_detect_fails.
  - intros code p1 message p2 Hb -> Hd Ht.
    now apply perform_translation_detected_fails with (p1 := p1).
  - intros message p1 Hb Hs Ht. now apply perform_translation_given_fails.
Qed.

Lemma perform_translation_catches_witness :
  perform_translation unreachable_translator "hello" "auto" "fr" (fresh_world 0) =
    (Returns (None, None),
     {| service := 1; state := initial_state;
        trace := [CallDetect "hello"; StError "An error occurred: timed out"] |})
  /\
  perform_translation detect_only_translator "hello" "auto" "fr" (fresh_world tt) =
    (Returns (None, None),
     {| service := tt; state := initial_state;
        trace := [CallDetect "hello"; CallTranslate "hello" "en" "fr";
                  StError "An error occurred: quota exceeded"] |})
  /\
  perform_translation unreachable_translator "hello" "en" "fr" (fresh_world 0) =
    (Returns (None, None),
     {| service := 1; state := initial_state;
        trace := [CallTranslate "hello" "en" "fr";
                  StError "An error occurred: timed out"] |}).
Proof.
  split; [|split].
  - exact (proj1 (proj2 (perform_translation_catches unreachable_translator
                           "hello" "auto" "fr" (fresh_world 0)))
             "timed out" 1 eq_refl eq_refl eq_refl).
  - exact (proj1 (proj2 (proj2 (perform_translation_catches detect_only_translator
                                  "hello" "auto" "fr" (fresh_world tt))))
             "en" tt "quota exceeded" tt eq_refl eq_refl eq_refl eq_refl).
  - refine (proj2 (proj2 (proj2 (perform_translation_catches unreachable_translator
                                  "hello" "en" "fr" (fresh_world 0))))
             "timed out" 1 eq_refl _ eq_refl).
    discriminate.
Defined.

(** C9, as stated, fails twice against the echoing service.  At a
    text of one space, which is not empty, the result is
    [(None, None)] and not the text with its code.  And at the code
    ["auto"] the language is detected first, so the source code
    returned is the detected ["en"] and not ["auto"]. *)
Lemma perform_translation_echo_space :
  (forall t s d p, translate echo_translator t s d p = (Ok t, p))
  /\ (" " <> ""
      /\ perform_translation echo_translator " " "en" "en" (fresh_world tt)
         = (Returns (None, None), fresh_world tt))
  /\ ("hello" <> ""
      /\ result (perform_translation echo_translator "hello" "auto" "auto"
                   (fresh_world tt))
         = Returns (Some "hello", Some "en")
      /\ "en" <> "auto").
Proof. repeat split; discriminate. Qed.

(** C9 (amended): for every text that is not blank (not empty and not
    made of whitespace only) and every language code other than the
    sentinel ["auto"], [perform_translation text code code] against a
    service whose [translate] echoes its input returns the text itself
    together with that code, after a single [translate] call. *)
Theorem perform_translation_echo {P} (tr : Translator P) text code (w : World P) :
  (forall t s d p, fst (translate tr t s d p) = Ok t) ->
  Py.blank text = false ->
  code <> "auto" ->
  result (perform_translation tr text code code w) = Returns (Some text, Some code)
  /\ added w (world (perform_translation tr text code code w))
     = [CallTranslate text code code].
Proof.
  intros Hecho Hb Hc.
  destruct (translate tr text code code (service w)) as [r p1] eqn:Ht.
  pose proof (Hecho text code code (service w)) as He.
  rewrite Ht in He. simpl in He. subst r.
  erewrite perform_translation_given by eassumption.
  split; [reflexivity|]. now apply added_app.
Qed.

Lemma perform_translation_echo_witness :
  result (perform_translation echo_translator "hello" "en" "en" (fresh_world tt))
  = Returns (Some "hello", Some "en")
  /\ added (fresh_world tt)
       (world (perform_translation echo_translator "hello" "en" "en" (fresh_world tt)))
     = [CallTranslate "hello" "en" "en"].
Proof.
  refine (perform_translation_echo echo_translator "hello" "en" (fresh_world tt)
            (fun _ _ _ _ => eq_refl) eq_refl _).
  discriminate.
Defined.

(** ** The swap callback *)

(** C3: for every pair of selections, [swap_languages] makes the old
    target the new source; it makes the old source the new target when
    the old source is not the reserved label, which the page spells
    ["Automatic Detection"], and leaves the target as it was otherwise;
    the history is not touched.  Swapping the reserved label and
    ["french"] gives ["french"] twice. *)
Theorem swap_languages_rule (st : SessionState) :
  source_lang (swap_languages st) = target_lang st
  /\ (source_lang st <> "Automatic Detection" ->
      target_lang (swap_languages st) = source_lang st)
  /\ (source_lang st = "Automatic Detection" ->
      target_lang (swap_languages st) = target_lang st)
  /\ history (swap_languages st) = history st
  /\ swap_languages {| history := history st; source_lang := "Automatic Detection";
                       target_lang := "french" |}
     = {| history := history st; source_lang := "french"; target_lang := "french" |}.
Proof.
  unfold swap_languages. simpl.
  destruct (String.eqb_spec (source_lang st) "Automatic Detection") as [He|Hn];
    simpl; repeat split; auto; congruence.
Qed.

Lemma swap_languages_rule_witness :
  target_lang (swap_languages {| history := []; source_lang := "english";
                                 target_lang := "french" |}) = "english"
  /\ target_lang (swap_languages initial_state) = "urdu".
Proof.
  split.
  - refine (proj1 (proj2 (swap_languages_rule
                            {| history := []; source_lang := "english";
                               target_lang := "french" |})) _).
    simpl. discriminate.
  - exact (proj1 (proj2 (proj2 (swap_languages_rule initial_state))) eq_refl).
Defined.

(** The target selection never becomes the reserved label through a
    swap. *)
Lemma swap_languages_target_policy (st : SessionState) :
  target_lang st <> "Automatic Detection" ->
  target_lang (swap_languages st) <> "Automatic Detection".
Proof.
  intros Ht. unfold swap_languages. simpl.
  destruct (String.eqb_spec (source_lang st) "Automatic Detection");
    simpl; assumption.
Qed.

(** ** The name-to-code dictionary *)

Section Catalog.

Variable LANGUAGES : list (string * string).

Lemma fold_insert_lookup (items : list (string * string)) (d : gmap string string) name :
  (name ∉ map snd items ->
   fold_left (fun d item => <[snd item := fst item]> d) items d !! name = d !! name)
  /\
  (name ∈ map snd items ->
   exists code,
     fold_left (fun d item => <[snd item := fst item]> d) items d !! name = Some code
     /\ (code, name) ∈ items).
Proof.
  revert d. induction items as [|[code0 name0] items IH]; intros d; simpl.
  - split; [reflexivity|]. intros H. inversion H.
  - destruct (IH (<[name0 := code0]> d)) as [IHout IHin].
    destruct (decide (name ∈ map snd items)) as [Hin|Hout].
    + split; [intros Hn; exfalso; apply Hn; now right|].
      intros _. destruct (IHin Hin) as (code & Hl & Hm).
      exists code. split; [exact Hl | now right].
    + rewrite (IHout Hout). split.
      * intros Hn. apply lookup_insert_ne. intros ->. apply Hn. left.
      * intros Hn. apply elem_of_cons in Hn as [->|Hin]; [|contradiction].
        exists code0. rewrite lookup_insert_eq. split; [reflexivity | left].
Qed.

Lemma name_to_code_absent name :
  name ∉ lang_values LANGUAGES -> name_to_code LANGUAGES !! name = None.
Proof.
  intros H. unfold name_to_code.
  rewrite (proj1 (fold_insert_lookup LANGUAGES ∅ name) H). apply lookup_empty.
Qed.

Lemma name_to_code_present name :
  name ∈ lang_values LANGUAGES ->
  exists code, name_to_code LANGUAGES !! name = Some code /\ (code, name) ∈ LANGUAGES.
Proof. apply fold_insert_lookup. Qed.

Lemma lang_codes_automatic : lang_codes LANGUAGES !! "Automatic Detection" = Some "auto".
Proof. apply lookup_insert_eq. Qed.

Lemma lang_codes_other name :
  name <> "Automatic Detection" ->
  lang_codes LANGUAGES !! name = name_to_code LANGUAGES !! name.
Proof. intros H. apply lookup_insert_ne. congruence. Qed.

(** Every option of the two select boxes has a code. *)
Lemma lang_codes_option name :
  name ∈ lang_options LANGUAGES -> is_Some (lang_codes LANGUAGES !! name).
Proof.
  intros H. destruct (decide (name = "Automatic Detection")) as [->|Hn].
  - rewrite lang_codes_automatic. eauto.
  - rewrite lang_codes_other by exact Hn.
    apply elem_of_cons in H as [H|H]; [contradiction|].
    destruct (name_to_code_present name H) as (code & -> & _). eauto.
Qed.

End Catalog.

(** C8: the reserved display name, which the page spells
    ["Automatic Detection"], maps to the sentinel ["auto"] whatever the
    table holds, and the lookup of a name that is neither the reserved
    name nor a name of the table (such as ["klingon"]) raises
    [KeyError]. *)
Theorem lang_codes_lookup {P} (LANGUAGES : list (string * string)) (w : World P) :
  getitem (lang_codes LANGUAGES) "Automatic Detection" w = (Returns "auto", w)
  /\
  (forall name,
      name <> "Automatic Detection" ->
      name ∉ lang_values LANGUAGES ->
      getitem (lang_codes LANGUAGES) name w = (Raises (KeyError name), w)).
Proof.
  split.
  - unfold getitem. now rewrite lang_codes_automatic.
  - intros name Hn Hout. unfold getitem.
    rewrite lang_codes_other by exact Hn.
    now rewrite name_to_code_absent.
Qed.

Lemma lang_codes_lookup_witness :
  getitem (lang_codes sample_languages) "klingon" (fresh_world tt)
  = (Raises (KeyError "klingon"), fresh_world tt).
Proof.
  refine (proj2 (lang_codes_lookup sample_languages (fresh_world tt)) "klingon" _ _).
  - discriminate.
  - apply (bool_decide_eq_false_1 _). vm_compute. reflexivity.
Defined.

(** ** The batch loop *)

Section Batch.

Context {P : Type} (tr : Translator P).

Lemma progress_reports_quiet (evs : list event) :
  Forall quiet evs -> progress_reports evs = [].
Proof.
  induction 1 as [|ev evs Hq _ IH]; [reflexivity|].
  destruct ev; simpl in Hq; try contradiction; exact IH.
Qed.

Lemma progress_reports_app (l1 l2 : list event) :
  progress_reports (l1 ++ l2) = progress_reports l1 ++ progress_reports l2.
Proof. apply omap_app. Qed.

(** One turn of the loop: the resolver is called on the text of the
    row with source ["auto"], its answer (or ["Error"]) joins the
    translations, and the progress is reported. *)
Lemma translate_rows_cons n dest i text rows acc (w : World P) :
  n <> 0 ->
  exists r w1 evs,
    perform_translation tr (Py.str text) "auto" dest w = (Returns r, w1)
    /\ state w1 = state w
    /\ trace w1 = trace w ++ evs
    /\ Forall quiet evs
    /\ translate_rows tr n dest i (text :: rows) acc w
       = translate_rows tr n dest (S i) rows (acc ++ [Py.or_else (fst r) "Error"])
           (after w1 (StProgress (fst (row_report n (S i))) (snd (row_report n (S i))))).
Proof.
  intros Hn.
  destruct (perform_translation_shape tr (Py.str text) "auto" dest w)
    as (r & w1 & evs & Hpt & Hst & Htr & Hq & _).
  exists r, w1, evs. repeat split; try assumption.
  simpl. unfold bind at 1. rewrite Hpt. destruct r as [translated code].
  destruct n as [|n]; [contradiction|].
  unfold Py.truediv, bind, emit, after, row_report. simpl.
  replace (i + 1) with (S i) by lia. reflexivity.
Qed.

Lemma translate_rows_app n dest i rows1 rows2 acc (w : World P) :
  n <> 0 ->
  translate_rows tr n dest i (rows1 ++ rows2) acc w =
    match translate_rows tr n dest i rows1 acc w with
    | (Returns acc', w') => translate_rows tr n dest (i + length rows1) rows2 acc' w'
    | (Raises e, w') => (Raises e, w')
    end.
Proof.
  intros Hn. revert i acc w.
  induction rows1 as [|text rows1 IH]; intros i acc w.
  - simpl. unfold ret. now rewrite Nat.add_0_r.
  - rewrite <- app_comm_cons.
    destruct (translate_rows_cons n dest i text (rows1 ++ rows2) acc w Hn)
      as (r & w1 & evs & Hpt & _ & _ & _ & ->).
    destruct (translate_rows_cons n dest i text rows1 acc w Hn)
      as (r' & w1' & evs' & Hpt' & _ & _ & _ & ->).
    rewrite Hpt in Hpt'. injection Hpt' as <- <-.
    rewrite IH. simpl length. now rewrite Nat.add_succ_r.
Qed.

(** The loop returns: one translation per row after those it started
    with, none of them empty, one progress report per row, and the
    session state as it was. *)
Lemma translate_rows_spec n dest rows : forall i acc (w : World P),
  n <> 0 ->
  exists outs w',
    translate_rows tr n dest i rows acc w = (Returns (acc ++ outs), w')
    /\ length outs = length rows
    /\ Forall (fun out => out <> "") outs
    /\ state w' = state w
    /\ progress_reports (trace w')
       = progress_reports (trace w) ++ map (row_report n) (seq (S i) (length rows)).
Proof.
  induction rows as [|text rows IH]; intros i acc w Hn.
  - exists [], w. simpl. rewrite !app_nil_r. repeat split. constructor.
  - destruct (translate_rows_cons n dest i text rows acc w Hn)
      as (r & w1 & evs & Hpt & Hst & Htr & Hq & ->).
    edestruct (IH (S i) (acc ++ [Py.or_else (fst r) "Error"])) as
      (outs & w' & -> & Hlen & Hne & Hst' & Hpr); [exact Hn|].
    exists (Py.or_else (fst r) "Error" :: outs), w'.
    rewrite <- app_assoc. repeat split.
    + simpl. now rewrite Hlen.
    + constructor; [|exact Hne].
      destruct r as [[[|c out]|] code]; simpl; discriminate.
    + rewrite Hst'. exact Hst.
    + rewrite Hpr. simpl trace. rewrite Htr, !progress_reports_app.
      rewrite (progress_reports_quiet evs Hq), app_nil_r, <- app_assoc.
      destruct (row_report n (S i)). reflexivity.
Qed.

Lemma translate_rows_none dest i acc (w : World P) :
  translate_rows tr 0 dest i [] acc w = (Returns acc, w).
Proof. reflexivity. Qed.

(** The whole handler, for a column that has rows. *)
Lemma translate_file_spec column dest (w : World P) :
  exists translations w',
    translate_rows tr (length column) dest 0 column []
      (after w (StProgress 0 "Translating...")) = (Returns translations, w')
    /\ translate_file tr column dest w
       = (Returns ("translated_" +:+ dest, translations),
          after w' (StSuccess "Batch translation completed!"))
    /\ length translations = length column
    /\ Forall (fun out => out <> "") translations
    /\ state w' = state w
    /\ progress_reports (trace w')
       = progress_reports (trace w)
         ++ (0%Q, "Translating...") :: map (row_report (length column))
                                         (seq 1 (length column)).
Proof.
  unfold translate_file.
  destruct column as [|text column].
  - exists [], (after w (StProgress 0 "Translating...")).
    repeat split; try constructor.
    simpl. now rewrite progress_reports_app.
  - set (col := text :: column).
    edestruct (translate_rows_spec (length col) dest col 0 []
                 (after w (StProgress 0 "Translating...")))
      as (outs & w' & Hrun & Hlen & Hne & Hst & Hpr); [discriminate|].
    simpl in Hrun. exists outs, w'. split; [exact Hrun|].
    repeat split; try assumption.
    + unfold bind at 1. unfold emit at 1. simpl.
      unfold bind at 1. fold (after w (StProgress 0 "Translating...")).
      fold col. rewrite Hrun. reflexivity.
    + rewrite Hpr. simpl trace. rewrite progress_reports_app, <- app_assoc.
      reflexivity.
Qed.

(** Row [i] (counted from zero) of a column: the resolver runs in the
    world the rows before it left, its answer is the translation at
    index [i], and the report closes the row. *)
Lemma rows_done_row column dest i text (w : World P) :
  column !! i = Some text ->
  exists r w1,
    perform_translation tr (Py.str text) "auto" dest (rows_done tr column dest i w)
    = (Returns r, w1)
    /\ rows_done tr column dest (S i) w
       = after w1 (StProgress (fst (row_report (length column) (S i)))
                              (snd (row_report (length column) (S i))))
    /\ forall translations w',
        translate_rows tr (length column) dest 0 column []
          (after w (StProgress 0 "Translating...")) = (Returns translations, w') ->
        translations !! i = Some (Py.or_else (fst r) "Error").
Proof.
  intros Hi.
  assert (Hlt : i < length column) by (eapply lookup_lt_Some; eassumption).
  assert (Hn : length column <> 0) by lia.
  set (n := length column) in *.
  set (w0 := after w (StProgress 0 "Translating...")).
  destruct (translate_rows_spec n dest (take i column) 0 [] w0 Hn)
    as (outs & wi & Hrun & Hlen & _).
  simpl in Hrun. rewrite length_take, Nat.min_l in Hlen by (subst n; lia).
  assert (Hwi : rows_done tr column dest i w = wi).
  { unfold rows_done. fold n w0. now rewrite Hrun. }
  destruct (translate_rows_cons n dest i text [] outs wi Hn)
    as (r & w1 & evs & Hpt & _ & _ & _ & Hrow).
  simpl in Hrow. unfold ret in Hrow.
  assert (Hnext : translate_rows tr n dest 0 (take (S i) column) [] w0
                  = (Returns (outs ++ [Py.or_else (fst r) "Error"]),
                     after w1 (StProgress (fst (row_report n (S i)))
                                          (snd (row_report n (S i)))))).
  { rewrite (take_S_r _ _ _ Hi), translate_rows_app by exact Hn.
    rewrite Hrun, length_take, Nat.min_l by (subst n; lia). exact Hrow. }
  exists r, w1. rewrite Hwi. split; [exact Hpt|]. split.
  - unfold rows_done. fold n w0. now rewrite Hnext.
  - intros translations w' Hall.
    change (length column) with n in Hall. fold w0 in Hall.
    rewrite <- (take_drop (S i) column) in Hall.
    rewrite translate_rows_app, Hnext in Hall by exact Hn.
    destruct (translate_rows_spec n dest (drop (S i) column)
                (0 + length (take (S i) column))
                (outs ++ [Py.or_else (fst r) "Error"])
                (after w1 (StProgress (fst (row_report n (S i)))
                                      (snd (row_report n (S i))))) Hn)
      as (rest & w'' & Hrest & _).
    rewrite Hrest in Hall. injection Hall as <- _.
    rewrite <- app_assoc, lookup_app_r by lia.
    rewrite Hlen, Nat.sub_diag. reflexivity.
Qed.

End Batch.

(** *** Claims about the batch loop *)

(** The example of the batch contract: a failing middle row. *)
Example translate_file_phrasebook :
  translate_file phrasebook_translator
    [Py.CellStr "hello"; Py.CellStr ""; Py.CellStr "world"] "es" (fresh_world tt)
  = (Returns ("translated_es", ["hola"; "Error"; "mundo"]),
     {| service := tt; state := initial_state;
        trace := [StProgress 0 "Translating...";
                  CallDetect "hello"; CallTranslate "hello" "en" "es";
                  StProgress (6004799503160661 # 18014398509481984)
                    "Translating row 1/3";
                  StProgress (6004799503160661 # 9007199254740992)
                    "Translating row 2/3";
                  CallDetect "world"; CallTranslate "world" "en" "es";
                  StProgress 1 "Translating row 3/3";
                  StSuccess "Batch translation completed!"] |}).
Proof. vm_compute. reflexivity. Qed.

(** C1: for every column and target code the batch handler returns one
    translation per row, in the order of the rows.  The translation at
    index [i] comes from the call of [perform_translation] on the text
    of row [i] with source ["auto"], made in the world the rows before
    it left behind; it is ["Error"] whenever that call returned
    [(None, None)], and the rows after it are processed all the same. *)
Theorem translate_file_rows {P} (tr : Translator P) column dest (w : World P) :
  exists translations w',
    translate_file tr column dest w
    = (Returns ("translated_" +:+ dest, translations), w')
    /\ length translations = length column
    /\ forall i text,
        column !! i = Some text ->
        exists r w1,
          perform_translation tr (Py.str text) "auto" dest (rows_done tr column dest i w)
          = (Returns r, w1)
          /\ rows_done tr column dest (S i) w
             = after w1 (StProgress (fst (row_report (length column) (S i)))
                                    (snd (row_report (length column) (S i))))
          /\ translations !! i = Some (Py.or_else (fst r) "Error")
          /\ (fst r = None -> translations !! i = Some "Error").
Proof.
  destruct (translate_file_spec tr column dest w)
    as (translations & w' & Hrun & Hfile & Hlen & _).
  exists translations, (after w' (StSuccess "Batch translation completed!")).
  split; [exact Hfile|]. split; [exact Hlen|].
  intros i text Hi.
  destruct (rows_done_row tr column dest i text w Hi) as (r & w1 & Hpt & Hnext & Hat).
  exists r, w1. split; [exact Hpt|]. split; [exact Hnext|].
  rewrite (Hat translations w' Hrun). split; [reflexivity|].
  intros ->. reflexivity.
Qed.

Lemma translate_file_rows_witness :
  exists translations,
    result (translate_file phrasebook_translator
              [Py.CellStr "hello"; Py.CellStr ""; Py.CellStr "world"] "es"
              (fresh_world tt))
    = Returns ("translated_es", translations)
    /\ length translations = 3
    /\ translations !! 1 = Some "Error".
Proof.
  destruct (translate_file_rows phrasebook_translator
              [Py.CellStr "hello"; Py.CellStr ""; Py.CellStr "world"] "es"
              (fresh_world tt))
    as (translations & w' & Hfile & Hlen & Hrows).
  exists translations. rewrite Hfile. split; [reflexivity|]. split; [exact Hlen|].
  destruct (Hrows 1 (Py.CellStr "") eq_refl) as (r & w1 & Hpt & _ & _ & Hnone).
  apply Hnone. vm_compute in Hpt. now injection Hpt as <- _.
Defined.

(** *** Python's division *)

Example truediv_third : Py.truediv 1 3 = Some (6004799503160661 # 18014398509481984)%Q.
Proof. vm_compute. reflexivity. Qed.

Example truediv_tenth : Py.truediv 1 10 = Some (3602879701896397 # 36028797018963968)%Q.
Proof. vm_compute. reflexivity. Qed.

Example truediv_whole : Py.truediv 7 7 = Some 1%Q.
Proof. vm_compute. reflexivity. Qed.

Example truediv_zero : Py.truediv 7 0 = None.
Proof. reflexivity. Qed.

Example int_truediv_tie_even :
  Py.int_truediv (2 ^ 53 + 1) 1 = 9007199254740992%Q
  /\ Py.int_truediv (2 ^ 53 + 3) 1 = 9007199254740996%Q.
Proof. split; vm_compute; reflexivity. Qed.

Example int_truediv_underflow :
  Py.int_truediv 1 (2 ^ 1075) = 0%Q
  /\ Py.int_truediv 3 (2 ^ 1075) = Py.int_truediv 1 (2 ^ 1073).
Proof. split; vm_compute; reflexivity. Qed.

Section Division.

Local Open Scope Z_scope.




















End Division.










(** ** The session history *)

Section History.

Context {P : Type}.

Lemma history_append_run (e : HistoryEntry) (w : World P) :
  history_append e w
  = (Returns tt,
     {| service := service w;
        state := set_history (history (state w) ++ [e]) (state w);
        trace := trace w |}).
Proof. reflexivity. Qed.

Lemma history_clear_run (w : World P) :
  history_clear w
  = (Returns tt,
     {| service := service w; state := set_history [] (state w); trace := trace w |}).
Proof. reflexivity. Qed.

Lemma appended_history (entries : list HistoryEntry) : forall w : World P,
  history (state (appended entries w)) = history (state w) ++ entries.
Proof.
  induction entries as [|e entries IH]; intros w.
  - simpl. now rewrite app_nil_r.
  - change (appended (e :: entries) w)
      with (appended entries (world (history_append e w))).
    rewrite IH, history_append_run. simpl. now rewrite <- app_assoc.
Qed.

Lemma appended_trace (entries : list HistoryEntry) : forall w : World P,
  trace (appended entries w) = trace w.
Proof.
  induction entries as [|e entries IH]; intros w; [reflexivity|].
  change (appended (e :: entries) w)
    with (appended entries (world (history_append e w))).
  now rewrite IH, history_append_run.
Qed.

(** Showing the history: nothing for an empty log, else the table of
    the reversed log; the log itself stays as it is unless the clear
    button started the run. *)
Lemma show_history_run (clicked : bool) (w : World P) :
  show_history clicked w
  = match history (state w) with
    | [] => (Returns tt, w)
    | _ :: _ =>
        let w1 := after w (StDataframe (rev (history (state w)))) in
        if clicked then
          (Returns tt, {| service := service w1; state := set_history [] (state w1);
                          trace := trace w1 |})
        else (Returns tt, w1)
    end.
Proof.
  unfold show_history, bind, get_state. simpl.
  destruct (history (state w)); [reflexivity|].
  destruct clicked; reflexivity.
Qed.

Lemma show_history_log (clicked : bool) (w : World P) :
  history (state (world (show_history clicked w))) = history (state w)
  \/ history (state (world (show_history clicked w))) = [].
Proof.
  rewrite show_history_run. destruct (history (state w)) eqn:Hh; simpl.
  - left. exact Hh.
  - destruct clicked; simpl; [now right | now left].
Qed.

End History.

(** C7: for every log and every list of entries, [append] puts the
    entry at the end of the log; listing gives the entries in the
    reverse of the order they were appended in and leaves the log as it
    was; after a clear the listing is empty and nothing is shown; and
    three entries appended to a cleared log are listed last to first. *)
Theorem history_ledger {P} (w : World P) (entries : list HistoryEntry) :
  (forall e, history (state (world (history_append e w))) = history (state w) ++ [e])
  /\ history (state (appended entries w)) = history (state w) ++ entries
  /\ (let w1 := appended entries (world (history_clear w)) in
      newest_first (history (state w1)) = rev entries
      /\ state (world (show_history false w1)) = state w1
      /\ (entries <> [] ->
          added w1 (world (show_history false w1)) = [StDataframe (rev entries)]))
  /\ (let w0 := world (history_clear w) in
      newest_first (history (state w0)) = []
      /\ show_history false w0 = (Returns tt, w0))
  /\ (forall e1 e2 e3,
        newest_first (history (state (appended [e1; e2; e3] (world (history_clear w)))))
        = [e3; e2; e1]).
Proof.
  split; [|split; [|split; [|split]]].
  - intros e. now rewrite history_append_run.
  - apply appended_history.
  - assert (Hlog : history (state (appended entries (world (history_clear w)))) = entries).
    { now rewrite appended_history, history_clear_run. }
    cbv zeta. split; [|split].
    + unfold newest_first. now rewrite Hlog.
    + rewrite show_history_run. rewrite Hlog. now destruct entries.
    + intros Hne. rewrite show_history_run. rewrite Hlog.
      destruct entries as [|e entries']; [contradiction|].
      apply added_app. reflexivity.
  - split; [reflexivity|]. now rewrite show_history_run, history_clear_run.
  - intros e1 e2 e3. reflexivity.
Qed.

Lemma history_ledger_witness :
  added (appended [entry "one" "un"; entry "two" "deux"; entry "three" "trois"]
           (world (history_clear (fresh_world tt))))
    (world (show_history false
              (appended [entry "one" "un"; entry "two" "deux"; entry "three" "trois"]
                 (world (history_clear (fresh_world tt))))))
  = [StDataframe [entry "three" "trois"; entry "two" "deux"; entry "one" "un"]].
Proof.
  refine (proj2 (proj2 (proj1 (proj2 (proj2
            (history_ledger (fresh_world tt)
               [entry "one" "un"; entry "two" "deux"; entry "three" "trois"]))))) _).
  discriminate.
Defined.

(** ** The interactive page *)

Section Interactive.

Context {P : Type} (tr : Translator P).
Variable LANGUAGES : list (string * string).
Variable title : string -> string.

(** A translation that came back empty, or none at all: the handler
    stops after the call, with the world the call left. *)
Lemma on_translate_falsy input now (w : World P) src dst r w1 :
  lang_codes LANGUAGES !! source_lang (state w) = Some src ->
  lang_codes LANGUAGES !! target_lang (state w) = Some dst ->
  perform_translation tr input src dst w = (Returns r, w1) ->
  Py.or_else (fst r) "" = "" ->
  on_translate tr LANGUAGES title input now w = (Returns tt, w1).
Proof.
  intros Hs Hd Hpt Hr. unfold on_translate, bind, get_state, getitem. simpl.
  rewrite Hs. simpl. rewrite Hd. simpl. rewrite Hpt.
  destruct r as [[[|c out]|] code]; simpl in *; try reflexivity.
  discriminate.
Qed.

(** What one click on "Translate" does to the log: nothing, or one
    more entry whose translation is not empty. *)
Lemma on_translate_log input now (w : World P) :
  let w' := world (on_translate tr LANGUAGES title input now w) in
  history (state w') = history (state w)
  \/ exists e, history (state w') = history (state w) ++ [e] /\ translated e <> "".
Proof.
  unfold on_translate, bind, get_state, getitem. simpl.
  destruct (lang_codes LANGUAGES !! source_lang (state w)) as [src|]; [|now left].
  simpl. destruct (lang_codes LANGUAGES !! target_lang (state w)) as [dst|]; [|now left].
  simpl.
  destruct (perform_translation_shape tr input src dst w)
    as (r & w1 & evs & -> & Hst & _).
  destruct r as [[[|c out]|] code]; simpl; try (left; now rewrite Hst).
  right. eexists. unfold emit, ret.
  destruct (String.eqb src "auto"); simpl; rewrite Hst; split; try reflexivity;
    discriminate.
Qed.

Lemma interactive_run_log (a : action) (w : World P) :
  let w' := world (interactive_run tr LANGUAGES title a w) in
  history (state w') = []
  \/ history (state w') = history (state w)
  \/ exists e, history (state w') = history (state w) ++ [e] /\ translated e <> "".
Proof.
  assert (Hshow : forall w0 : World P,
             (history (state w0) = history (state w)
              \/ exists e, history (state w0) = history (state w) ++ [e]
                           /\ translated e <> "") ->
             forall clicked r, show_history clicked w0 = r ->
             history (state (world r)) = []
             \/ history (state (world r)) = history (state w)
             \/ exists e, history (state (world r)) = history (state w) ++ [e]
                          /\ translated e <> "").
  { intros w0 H0 clicked r <-.
    destruct (show_history_log clicked w0) as [-> | ->]; [now right | now left]. }
  destruct a as [name|name| |input now|]; simpl; unfold bind, get_state; simpl.
  - destruct (bool_decide (name ∈ lang_options LANGUAGES)); simpl;
      eapply Hshow; try reflexivity; now left.
  - destruct (bool_decide (name ∈ lang_values LANGUAGES)); simpl;
      eapply Hshow; try reflexivity; now left.
  - eapply Hshow; try reflexivity. left.
    unfold swap_languages. simpl.
    now destruct (String.eqb (source_lang (state w)) "Automatic Detection").
  - pose proof (on_translate_log input now w) as Hlog. simpl in Hlog.
    destruct (on_translate tr LANGUAGES title input now w) as [[[]|e] w1];
      simpl in *.
    + eapply Hshow; try reflexivity. exact Hlog.
    + right. exact Hlog.
  - eapply Hshow; try reflexivity. now left.
Qed.

(** However the page is used, no entry with an empty translation gets
    into the log. *)
Lemma session_translations_kept (actions : list action) : forall w : World P,
  translations_kept (history (state w)) ->
  translations_kept (history (state (session tr LANGUAGES title actions w))).
Proof.
  induction actions as [|a actions IH]; intros w Hw; [exact Hw|].
  change (session tr LANGUAGES title (a :: actions) w)
    with (session tr LANGUAGES title actions
            (world (interactive_run tr LANGUAGES title a w))).
  apply IH. unfold translations_kept in *.
  destruct (interactive_run_log a w) as [-> | [-> | (e & -> & He)]].
  - constructor.
  - exact Hw.
  - apply Forall_app. split; [exact Hw|]. now constructor.
Qed.

End Interactive.

(** A click on "Translate" in a fresh session against the echoing
    service: the success message, the detected language, the text and
    one entry in the log. *)
Example on_translate_echo :
  on_translate echo_translator sample_languages ascii_title "hello"
    "2024-01-01 00:00:00" (fresh_world tt)
  = (Returns tt,
     {| service := tt;
        state := {| history := [ {| original := "hello"; translated := "hello";
                                    source := "Automatic Detection"; target := "urdu";
                                    timestamp := "2024-01-01 00:00:00" |} ];
                    source_lang := "Automatic Detection"; target_lang := "urdu" |};
        trace := [CallDetect "hello"; CallTranslate "hello" "en" "ur";
                  StSuccess "Translation complete!";
                  StInfo "Detected Source Language: **English**";
                  StSubheader "Translated Text:";
                  StCode "hello"] |}).
Proof. vm_compute. reflexivity. Qed.

(** C10: when the provider's [translate] succeeds with the empty string
    on a text, the batch loop records ["Error"] for that row and the
    "Translate" handler stops without a success message and without
    touching the session state; no translation of a batch is ever
    empty, and no use of the page puts an entry with an empty
    translation into the history. *)
Theorem empty_translation_is_failure {P} (tr : Translator P)
    (LANGUAGES : list (string * string)) (title : string -> string) :
  (forall column dest (w : World P) i text code p1 p2,
      column !! i = Some text ->
      detect tr (Py.str text) (service (rows_done tr column dest i w)) = (Ok code, p1) ->
      translate tr (Py.str text) code dest p1 = (Ok "", p2) ->
      exists translations w',
        translate_file tr column dest w
        = (Returns ("translated_" +:+ dest, translations), w')
        /\ translations !! i = Some "Error")
  /\
  (forall column dest (w : World P),
      exists translations w',
        translate_file tr column dest w
        = (Returns ("translated_" +:+ dest, translations), w')
        /\ Forall (fun out => out <> "") translations)
  /\
  (forall input now (w : World P) src dst p2,
      lang_codes LANGUAGES !! source_lang (state w) = Some src ->
      lang_codes LANGUAGES !! target_lang (state w) = Some dst ->
      (src <> "auto" /\ translate tr input src dst (service w) = (Ok "", p2))
      \/ (src = "auto" /\ exists code p1,
             detect tr input (service w) = (Ok code, p1)
             /\ translate tr input code dst p1 = (Ok "", p2)) ->
      exists w1,
        on_translate tr LANGUAGES title input now w = (Returns tt, w1)
        /\ state w1 = state w
        /\ Forall quiet (added w w1))
  /\
  (forall actions (w : World P),
      translations_kept (history (state w)) ->
      translations_kept (history (state (session tr LANGUAGES title actions w)))).
Proof.
  split; [|split; [|split]].
  - intros column dest w i text code p1 p2 Hi Hd Ht.
    destruct (translate_file_spec tr column dest w)
      as (translations & w' & Hrun & Hfile & _).
    destruct (rows_done_row tr column dest i text w Hi) as (r & w1 & Hpt & _ & Hat).
    exists translations, (after w' (StSuccess "Batch translation completed!")).
    split; [exact Hfile|]. rewrite (Hat translations w' Hrun).
    destruct (Py.blank (Py.str text)) eqn:Hb.
    + rewrite perform_translation_blank in Hpt by exact Hb.
      now injection Hpt as <- _.
    + rewrite (perform_translation_detected tr _ _ _ _ _ _ _ Hb Hd Ht) in Hpt.
      now injection Hpt as <- _.
  - intros column dest w.
    destruct (translate_file_spec tr column dest w)
      as (translations & w' & _ & Hfile & _ & Hne & _).
    eauto.
  - intros input now w src dst p2 Hs Hd Hcase.
    destruct (Py.blank input) eqn:Hb.
    { exists w. split; [|split].
      - eapply on_translate_falsy; try eassumption.
        + now apply perform_translation_blank.
        + reflexivity.
      - reflexivity.
      - rewrite added_nothing. constructor. }
    destruct Hcase as [[Hsrc Ht] | [-> (code & p1 & Hdet & Ht)]].
    + pose proof (perform_translation_given tr _ _ _ _ _ _ Hb Hsrc Ht) as Hpt.
      eexists. split; [|split].
      * eapply on_translate_falsy; try eassumption. reflexivity.
      * reflexivity.
      * erewrite added_app by reflexivity. repeat constructor.
    + pose proof (perform_translation_detected tr _ _ _ _ _ _ _ Hb Hdet Ht) as Hpt.
      eexists. split; [|split].
      * eapply on_translate_falsy; try eassumption. reflexivity.
      * reflexivity.
      * erewrite added_app by reflexivity. repeat constructor.
  - intros actions w. apply session_translations_kept.
Qed.

Lemma empty_translation_is_failure_witness :
  (exists translations w',
      translate_file silent_translator [Py.CellStr "hello"] "fr" (fresh_world tt)
      = (Returns ("translated_fr", translations), w')
      /\ translations !! 0 = Some "Error")
  /\
  (exists w1,
      on_translate silent_translator sample_languages ascii_title "hello"
        "2024-01-01 00:00:00" (fresh_world tt) = (Returns tt, w1)
      /\ state w1 = initial_state
      /\ Forall quiet (added (fresh_world tt) w1))
  /\
  translations_kept
    (history (state (session silent_translator sample_languages ascii_title
                       [ClickTranslate "hello" "2024-01-01 00:00:00"]
                       (fresh_world tt)))).
Proof.
  pose proof (empty_translation_is_failure silent_translator sample_languages
                ascii_title) as (Hrow & _ & Hclick & Hlog).
  split; [|split].
  - exact (Hrow [Py.CellStr "hello"] "fr" (fresh_world tt) 0 (Py.CellStr "hello")
             "en" tt tt eq_refl eq_refl eq_refl).
  - refine (Hclick "hello" "2024-01-01 00:00:00" (fresh_world tt) "auto" "ur" tt
              _ _ _).
    + vm_compute. reflexivity.
    + vm_compute. reflexivity.
    + right. split; [reflexivity|]. exists "en", tt. split; reflexivity.
  - apply Hlog. constructor.
Defined.

(** ** Further properties of the resolver *)

(** Every way a call of [perform_translation] can go, with the events
    it adds. *)
Lemma perform_translation_runs {P} (tr : Translator P) text src dest (w : World P) :
  exists r w' evs,
    perform_translation tr text src dest w = (Returns r, w')
    /\ state w' = state w
    /\ trace w' = trace w ++ evs
    /\ ((Py.blank text = true /\ r = (None, None) /\ evs = [])
        \/ (Py.blank text = false /\ src = "auto" /\ exists code out,
               r = (Some out, Some code)
               /\ evs = [CallDetect text; CallTranslate text code dest])
        \/ (Py.blank text = false /\ src = "auto" /\ exists message,
               r = (None, None)
               /\ evs = [CallDetect text; StError ("An error occurred: " +:+ message)])
        \/ (Py.blank text = false /\ src = "auto" /\ exists code message,
               r = (None, None)
               /\ evs = [CallDetect text; CallTranslate text code dest;
                         StError ("An error occurred: " +:+ message)])
        \/ (Py.blank text = false /\ src <> "auto" /\ exists out,
               r = (Some out, Some src) /\ evs = [CallTranslate text src dest])
        \/ (Py.blank text = false /\ src <> "auto" /\ exists message,
               r = (None, None)
               /\ evs = [CallTranslate text src dest;
                         StError ("An error occurred: " +:+ message)])).
Proof.
  destruct (Py.blank text) eqn:Hb.
  - exists (None, None), w, []. rewrite perform_translation_blank by exact Hb.
    rewrite app_nil_r. repeat split. now left.
  - destruct (String.eqb_spec src "auto") as [->|Hs].
    + destruct (detect tr text (service w)) as [[code|message] p1] eqn:Hd.
      * destruct (translate tr text code dest p1) as [[out|message] p2] eqn:Ht.
        -- erewrite perform_translation_detected by eassumption.
           do 3 eexists. repeat split. right; left. eauto 8.
        -- erewrite perform_translation_detected_fails by eassumption.
           do 3 eexists. repeat split. do 3 right; left. eauto 8.
      * erewrite perform_translation_detect_fails by eassumption.
        do 3 eexists. repeat split. do 2 right; left. eauto 8.
    + destruct (translate tr text src dest (service w)) as [[out|message] p1] eqn:Ht.
      * erewrite perform_translation_given by eassumption.
        do 3 eexists. repeat split. do 4 right; left. eauto 8.
      * erewrite perform_translation_given_fails by eassumption.
        do 3 eexists. repeat split. do 5 right. eauto 8.
Qed.

(** X1: a call of [perform_translation] never touches the session
    state, asks the provider at most twice, and asks only about what it
    was given: the text as it stands, the target code, the source code
    when one was named, and a detection only for the source ["auto"]. *)
Theorem perform_translation_budget {P} (tr : Translator P) text src dest (w : World P) :
  let w' := world (perform_translation tr text src dest w) in
  state w' = state w
  /\ length (provider_calls (added w w')) <= 2
  /\ Forall (as_given text src dest) (added w w').
Proof.
  destruct (perform_translation_runs tr text src dest w)
    as (r & w' & evs & Hrun & Hst & Htr & Hcases).
  rewrite Hrun. simpl. rewrite (added_app _ _ _ Htr). split; [exact Hst|].
  destruct Hcases as
    [(_ & _ & ->) | [(_ & -> & code & out & _ & ->) | [(_ & -> & m & _ & ->) |
    [(_ & -> & code & m & _ & ->) | [(_ & Hs & out & _ & ->) | (_ & Hs & m & _ & ->)]]]]];
    simpl; (split; [lia|]); repeat constructor; simpl; auto; try congruence.
Qed.

(** X2: [perform_translation] makes no provider call, and indeed leaves
    no trace at all, exactly when the text is blank; any other text
    costs at least one provider call. *)
Theorem perform_translation_silent_iff {P} (tr : Translator P) text src dest (w : World P) :
  let w' := world (perform_translation tr text src dest w) in
  (provider_calls (added w w') = [] <-> Py.blank text = true)
  /\ (added w w' = [] <-> Py.blank text = true)
  /\ (1 <= length (provider_calls (added w w')) <-> Py.blank text = false).
Proof.
  destruct (perform_translation_runs tr text src dest w)
    as (r & w' & evs & Hrun & Hst & Htr & Hcases).
  cbv zeta. rewrite Hrun. simpl. rewrite (added_app _ _ _ Htr).
  destruct Hcases as
    [(Hb & _ & ->) | [(Hb & _ & code & out & _ & ->) | [(Hb & _ & m & _ & ->) |
    [(Hb & _ & code & m & _ & ->) | [(Hb & _ & out & _ & ->) | (Hb & _ & m & _ & ->)]]]]];
    rewrite Hb; simpl; repeat split; intros H; try reflexivity; try discriminate;
    try lia.
Qed.

(** X3: the answer is all or nothing, and a missing answer is
    explained: either a translation comes with its source code, the
    last thing done was the [translate] call for that code and no error
    was shown; or the answer is [(None, None)], and then the text was
    blank and nothing happened, or the last thing done was to show one
    error message. *)
Theorem perform_translation_answer {P} (tr : Translator P) text src dest (w : World P) :
  let r := perform_translation tr text src dest w in
  (exists out code,
      result r = Returns (Some out, Some code)
      /\ last (added w (world r)) = Some (CallTranslate text code dest)
      /\ List.filter is_error (added w (world r)) = [])
  \/ (result r = Returns (None, None)
      /\ ((Py.blank text = true /\ world r = w)
          \/ (Py.blank text = false /\ exists message,
                 last (added w (world r))
                 = Some (StError ("An error occurred: " +:+ message))
                 /\ length (List.filter is_error (added w (world r))) = 1))).
Proof.
  destruct (Py.blank text) eqn:Hb.
  { right. rewrite perform_translation_blank by exact Hb. split; [reflexivity|].
    left. split; reflexivity. }
  destruct (perform_translation_runs tr text src dest w)
    as (r & w' & evs & Hrun & Hst & Htr & Hcases).
  cbv zeta. rewrite Hrun. simpl. rewrite (added_app _ _ _ Htr).
  destruct Hcases as
    [(Hb' & _) | [(_ & _ & code & out & -> & ->) | [(_ & _ & m & -> & ->) |
    [(_ & _ & code & m & -> & ->) | [(_ & _ & out & -> & ->) | (_ & _ & m & -> & ->)]]]]];
    try congruence.
  - left. exists out, code. repeat split.
  - right. split; [reflexivity|]. right. split; [reflexivity|]. exists m. split; reflexivity.
  - right. split; [reflexivity|]. right. split; [reflexivity|]. exists m. split; reflexivity.
  - left. exists out, src. repeat split.
  - right. split; [reflexivity|]. right. split; [reflexivity|]. exists m. split; reflexivity.
Qed.

(** ** Further properties of the selections and the dictionary *)

(** X4: between two real languages the swap is its own inverse:
    swapping twice gives the session state back. *)
Theorem swap_languages_twice (st : SessionState) :
  source_lang st <> "Automatic Detection" ->
  target_lang st <> "Automatic Detection" ->
  swap_languages (swap_languages st) = st.
Proof.
  intros Hs Ht. destruct st as [h s t]. simpl in *.
  unfold swap_languages. simpl.
  apply String.eqb_neq in Hs. rewrite Hs. simpl.
  apply String.eqb_neq in Ht. rewrite Ht. reflexivity.
Qed.

Lemma swap_languages_twice_witness :
  swap_languages (swap_languages {| history := []; source_lang := "english";
                                    target_lang := "french" |})
  = {| history := []; source_lang := "english"; target_lang := "french" |}.
Proof.
  refine (swap_languages_twice {| history := []; source_lang := "english";
                                  target_lang := "french" |} _ _);
    simpl; discriminate.
Defined.

Lemma swap_keeps_options (LANGUAGES : list (string * string)) (st : SessionState) :
  valid_selection LANGUAGES st ->
  valid_selection LANGUAGES (swap_languages st).
Proof.
  intros [Hs Ht]. unfold valid_selection, swap_languages. simpl.
  destruct (String.eqb_spec (source_lang st) "Automatic Detection") as [He|Hn]; simpl.
  - split; [now right | exact Ht].
  - split; [now right|].
    apply elem_of_cons in Hs as [Hs|Hs]; [contradiction | exact Hs].
Qed.

(** X5: the swap keeps both selections among the options of their
    select boxes: the source among ["Automatic Detection"] and the
    language names, the target among the language names; so the target
    is never ["Automatic Detection"] unless the table has a language of
    that name. *)
Theorem swap_languages_valid (LANGUAGES : list (string * string)) (st : SessionState) :
  valid_selection LANGUAGES st ->
  valid_selection LANGUAGES (swap_languages st)
  /\ ("Automatic Detection" ∉ lang_values LANGUAGES ->
      target_lang (swap_languages st) <> "Automatic Detection").
Proof.
  intros Hv. pose proof (swap_keeps_options LANGUAGES st Hv) as Hv'.
  split; [exact Hv'|]. intros Hout Heq. apply Hout.
  rewrite <- Heq. apply Hv'.
Qed.

Lemma swap_languages_valid_witness :
  valid_selection sample_languages (swap_languages initial_state)
  /\ target_lang (swap_languages initial_state) <> "Automatic Detection".
Proof.
  assert (Hv : valid_selection sample_languages initial_state).
  { split; apply (bool_decide_unpack _); vm_compute; exact I. }
  split.
  - exact (proj1 (swap_languages_valid sample_languages initial_state Hv)).
  - refine (proj2 (swap_languages_valid sample_languages initial_state Hv) _).
    apply (bool_decide_unpack _). vm_compute. exact I.
Defined.

Lemma dict_get_present (d : list (string * string)) code name default :
  NoDup (map fst d) -> (code, name) ∈ d -> Py.dict_get d code default = name.
Proof.
  unfold Py.dict_get.
  induction d as [|[c n] d IH]; intros Hnd Hin; [inversion Hin|].
  simpl in *. apply NoDup_cons in Hnd as [Hc Hnd].
  apply elem_of_cons in Hin as [[= <- <-]|Hin].
  - now rewrite String.eqb_refl.
  - destruct (String.eqb_spec c code) as [->|Hne]; [|now apply IH].
    exfalso. apply Hc. apply (list_elem_of_fmap_2 fst) in Hin. exact Hin.
Qed.

Lemma dict_get_absent (d : list (string * string)) code default :
  code ∉ map fst d -> Py.dict_get d code default = default.
Proof.
  unfold Py.dict_get.
  induction d as [|[c n] d IH]; intros Hout; [reflexivity|].
  simpl in *. destruct (String.eqb_spec c code) as [->|Hne].
  - exfalso. apply Hout. left.
  - apply IH. intros Hin. apply Hout. now right.
Qed.

(** X6: from a name to its code and back.  For a language name other
    than ["Automatic Detection"], [lang_codes] gives a code of the
    table under which [LANGUAGES.get] finds that very name again, even
    when several codes share the name. *)
Theorem lang_codes_round_trip (LANGUAGES : list (string * string)) name :
  NoDup (map fst LANGUAGES) ->
  name ∈ lang_values LANGUAGES ->
  name <> "Automatic Detection" ->
  exists code,
    lang_codes LANGUAGES !! name = Some code
    /\ (code, name) ∈ LANGUAGES
    /\ Py.dict_get LANGUAGES code "Unknown" = name.
Proof.
  intros Hnd Hin Hne.
  destruct (name_to_code_present LANGUAGES name Hin) as (code & Hl & Hm).
  exists code. rewrite lang_codes_other by exact Hne.
  split; [exact Hl|]. split; [exact Hm|]. now apply dict_get_present.
Qed.

Lemma lang_codes_round_trip_witness :
  exists code,
    lang_codes twin_languages !! "hebrew" = Some code
    /\ (code, "hebrew") ∈ twin_languages
    /\ Py.dict_get twin_languages code "Unknown" = "hebrew".
Proof.
  apply (lang_codes_round_trip twin_languages "hebrew").
  - apply (bool_decide_unpack _). vm_compute. exact I.
  - apply (bool_decide_unpack _). vm_compute. exact I.
  - discriminate.
Defined.

(** X7: when several codes share a name the last one of the table
    wins: the code of a row is the code [lang_codes] gives for its name
    as soon as no later row carries the same name. *)
Theorem lang_codes_last_wins (before later : list (string * string)) code name :
  name ∉ map snd later ->
  name <> "Automatic Detection" ->
  lang_codes (before ++ (code, name) :: later) !! name = Some code.
Proof.
  intros Hlater Hne. rewrite lang_codes_other by exact Hne.
  unfold name_to_code. rewrite fold_left_app. simpl.
  rewrite (proj1 (fold_insert_lookup later _ name) Hlater).
  apply lookup_insert_eq.
Qed.

Lemma lang_codes_last_wins_witness :
  lang_codes twin_languages !! "hebrew" = Some "he".
Proof.
  refine (lang_codes_last_wins [("iw", "hebrew"); ("en", "english")] [] "he" "hebrew" _ _).
  - apply (bool_decide_unpack _). vm_compute. exact I.
  - discriminate.
Defined.

(** ** Further properties of the interactive page *)

Section Page.

Context {P : Type} (tr : Translator P).
Variable LANGUAGES : list (string * string).
Variable title : string -> string.

(** A translation that is not empty: the messages, and one more entry
    in the log. *)
Lemma on_translate_truthy input now (w : World P) src dst out code w1 :
  lang_codes LANGUAGES !! source_lang (state w) = Some src ->
  lang_codes LANGUAGES !! target_lang (state w) = Some dst ->
  perform_translation tr input src dst w = (Returns (Some out, Some code), w1) ->
  out <> "" ->
  on_translate tr LANGUAGES title input now w
  = (Returns tt,
     {| service := service w1;
        state := set_history
                   (history (state w1)
                    ++ [ {| original := input; translated := out;
                            source := source_lang (state w1);
                            target := target_lang (state w1);
                            timestamp := now |} ])
                   (state w1);
        trace := trace w1
                 ++ StSuccess "Translation complete!"
                    :: (if String.eqb src "auto" then
                          [StInfo ("Detected Source Language: **"
                                   +:+ title (Py.dict_get LANGUAGES code "Unknown")
                                   +:+ "**")]
                        else [])
                    ++ [StSubheader "Translated Text:"; StCode out] |}).
Proof.
  intros Hs Hd Hpt Hout. unfold on_translate, bind, get_state, getitem. simpl.
  rewrite Hs. simpl. rewrite Hd. simpl. rewrite Hpt.
  destruct out as [|c out]; [contradiction|]. simpl.
  unfold emit, ret, history_append, bind, get_state, put_state.
  destruct (String.eqb src "auto"); simpl; rewrite <- !app_assoc; reflexivity.
Qed.

(** With both selections among the options the handler returns, and
    the selections stay as they are. *)
Lemma on_translate_returns input now (w : World P) :
  valid_selection LANGUAGES (state w) ->
  exists w',
    on_translate tr LANGUAGES title input now w = (Returns tt, w')
    /\ source_lang (state w') = source_lang (state w)
    /\ target_lang (state w') = target_lang (state w).
Proof.
  intros [Hsrc Htgt].
  destruct (lang_codes_option LANGUAGES _ Hsrc) as [src Hs].
  assert (Htgt' : target_lang (state w) ∈ lang_options LANGUAGES) by now right.
  destruct (lang_codes_option LANGUAGES _ Htgt') as [dst Hd].
  destruct (perform_translation_shape tr input src dst w)
    as (r & w1 & evs & Hpt & Hst & _ & _ & Hr).
  destruct Hr as [-> | (out & code & ->)].
  - exists w1. erewrite on_translate_falsy by (try eassumption; reflexivity).
    now rewrite Hst.
  - destruct out as [|c out].
    + exists w1. erewrite on_translate_falsy by (try eassumption; reflexivity).
      now rewrite Hst.
    + eexists. erewrite on_translate_truthy by (try eassumption; discriminate).
      split; [reflexivity|]. simpl. now rewrite Hst.
Qed.

Lemma show_history_returns clicked (w : World P) :
  exists w',
    show_history clicked w = (Returns tt, w')
    /\ source_lang (state w') = source_lang (state w)
    /\ target_lang (state w') = target_lang (state w).
Proof.
  rewrite show_history_run. destruct (history (state w)); [eauto|].
  destruct clicked; eauto.
Qed.

Lemma interactive_run_valid (a : action) (w : World P) :
  valid_selection LANGUAGES (state w) ->
  exists w',
    interactive_run tr LANGUAGES title a w = (Returns tt, w')
    /\ valid_selection LANGUAGES (state w').
Proof.
  intros Hv.
  assert (Hshow : forall w0 : World P,
             valid_selection LANGUAGES (state w0) ->
             exists w', show_history false w0 = (Returns tt, w')
                        /\ valid_selection LANGUAGES (state w')).
  { intros w0 [H1 H2]. destruct (show_history_returns false w0) as (w' & -> & Hs & Ht).
    exists w'. split; [reflexivity|]. unfold valid_selection. now rewrite Hs, Ht. }
  destruct a as [name|name| |input now|]; simpl; unfold bind, get_state; simpl.
  - destruct (bool_decide_reflect (name ∈ lang_options LANGUAGES)) as [Hin|Hout];
      simpl; apply Hshow; [|exact Hv].
    split; [exact Hin | apply Hv].
  - destruct (bool_decide_reflect (name ∈ lang_values LANGUAGES)) as [Hin|Hout];
      simpl; apply Hshow; [|exact Hv].
    split; [apply Hv | exact Hin].
  - apply Hshow. simpl. now apply swap_keeps_options.
  - destruct (on_translate_returns input now w Hv) as (w1 & -> & Hs & Ht).
    apply Hshow. unfold valid_selection. rewrite Hs, Ht. exact Hv.
  - destruct (show_history_returns true w) as (w' & -> & Hs & Ht).
    exists w'. split; [reflexivity|]. unfold valid_selection. now rewrite Hs, Ht.
Qed.

End Page.

(** X8: as long as both selections are options of their select boxes,
    no run of the interactive page raises (the two dictionary lookups
    of the "Translate" handler find their keys), and every run leaves
    the selections among the options, whatever the user does and
    however long the session lasts. *)
Theorem interactive_page_never_raises {P} (tr : Translator P)
    (LANGUAGES : list (string * string)) (title : string -> string) (w : World P) :
  valid_selection LANGUAGES (state w) ->
  (forall a, exists w',
        interactive_run tr LANGUAGES title a w = (Returns tt, w')
        /\ valid_selection LANGUAGES (state w'))
  /\ (forall actions,
         valid_selection LANGUAGES (state (session tr LANGUAGES title actions w))).
Proof.
  intros Hv. split.
  - intros a. now apply interactive_run_valid.
  - intros actions. revert w Hv.
    induction actions as [|a actions IH]; intros w Hv; [exact Hv|].
    change (session tr LANGUAGES title (a :: actions) w)
      with (session tr LANGUAGES title actions
              (world (interactive_run tr LANGUAGES title a w))).
    apply IH.
    destruct (interactive_run_valid tr LANGUAGES title a w Hv) as (w' & -> & Hv').
    exact Hv'.
Qed.

Lemma interactive_page_never_raises_witness :
  (exists w',
      interactive_run echo_translator sample_languages ascii_title
        (ClickTranslate "hello" "2024-01-01 00:00:00") (fresh_world tt)
      = (Returns tt, w')
      /\ valid_selection sample_languages (state w'))
  /\ valid_selection sample_languages
       (state (session echo_translator sample_languages ascii_title
                 [ClickSwap; SelectSource "french"; ClickSwap] (fresh_world tt))).
Proof.
  assert (Hv : valid_selection sample_languages (state (fresh_world tt))).
  { split; apply (bool_decide_unpack _); vm_compute; exact I. }
  pose proof (interactive_page_never_raises echo_translator sample_languages
                ascii_title (fresh_world tt) Hv) as [Hrun Hsession].
  split; [apply Hrun | apply Hsession].
Defined.

(** X9: the "Translate" handler never asks the provider to translate
    into the sentinel ["auto"]: with both selections among the options,
    and a table that neither names a language ["Automatic Detection"]
    nor uses ["auto"] as a code, every [translate] call of the handler
    has a code of the table as its target. *)
Theorem on_translate_real_target {P} (tr : Translator P)
    (LANGUAGES : list (string * string)) (title : string -> string)
    input now (w : World P) :
  valid_selection LANGUAGES (state w) ->
  "Automatic Detection" ∉ lang_values LANGUAGES ->
  "auto" ∉ map fst LANGUAGES ->
  Forall real_target
    (added w (world (on_translate tr LANGUAGES title input now w))).
Proof.
  intros [Hsrc Htgt] Hlabel Hauto.
  destruct (lang_codes_option LANGUAGES _ Hsrc) as [src Hs].
  assert (Hne : target_lang (state w) <> "Automatic Detection") by congruence.
  destruct (name_to_code_present LANGUAGES _ Htgt) as (dst & Hd & Hrow).
  rewrite <- lang_codes_other in Hd by exact Hne.
  assert (Hdst : dst <> "auto").
  { intros ->. apply Hauto. apply (list_elem_of_fmap_2 fst) in Hrow. exact Hrow. }
  destruct (perform_translation_runs tr input src dst w)
    as (r & w1 & evs & Hpt & Hst & Htr & Hcases).
  assert (Hevs : Forall real_target evs).
  { destruct Hcases as
      [(_ & _ & ->) | [(_ & _ & code & out & _ & ->) | [(_ & _ & m & _ & ->) |
      [(_ & _ & code & m & _ & ->) | [(_ & _ & out & _ & ->) | (_ & _ & m & _ & ->)]]]]];
      repeat constructor; exact Hdst. }
  assert (Hr : r = (None, None) \/ exists out code, r = (Some out, Some code)).
  { destruct Hcases as
      [(_ & -> & _) | [(_ & _ & code & out & -> & _) | [(_ & _ & m & -> & _) |
      [(_ & _ & code & m & -> & _) | [(_ & _ & out & -> & _) | (_ & _ & m & -> & _)]]]]];
      eauto. }
  destruct Hr as [-> | (out & code & ->)].
  - erewrite on_translate_falsy by (try eassumption; reflexivity).
    simpl. now rewrite (added_app _ _ _ Htr).
  - destruct out as [|c out].
    + erewrite on_translate_falsy by (try eassumption; reflexivity).
      simpl. now rewrite (added_app _ _ _ Htr).
    + erewrite on_translate_truthy by (try eassumption; discriminate).
      simpl. erewrite added_app; [|simpl; rewrite Htr, <- app_assoc; reflexivity].
      apply Forall_app. split; [exact Hevs|].
      destruct (String.eqb src "auto"); repeat constructor.
Qed.

Lemma on_translate_real_target_witness :
  Forall real_target
    (added (fresh_world tt)
       (world (on_translate echo_translator sample_languages ascii_title "hello"
                 "2024-01-01 00:00:00" (fresh_world tt)))).
Proof.
  apply (on_translate_real_target echo_translator sample_languages ascii_title
           "hello" "2024-01-01 00:00:00" (fresh_world tt)).
  - split; apply (bool_decide_unpack _); vm_compute; exact I.
  - apply (bool_decide_unpack _). vm_compute. exact I.
  - apply (bool_decide_unpack _). vm_compute. exact I.
Defined.

(** X10: a translation that is not empty is shown and logged: the
    handler returns, the log gains exactly one entry made of the input
    text as typed, the translation, the two selected names (not their
    codes) and the clock reading, the selections stay, and what follows
    the provider calls is the success message, the detected language
    when the source code is ["auto"], and the translation. *)
Theorem on_translate_records {P} (tr : Translator P)
    (LANGUAGES : list (string * string)) (title : string -> string)
    input now (w : World P) src dst out code w1 :
  lang_codes LANGUAGES !! source_lang (state w) = Some src ->
  lang_codes LANGUAGES !! target_lang (state w) = Some dst ->
  perform_translation tr input src dst w = (Returns (Some out, Some code), w1) ->
  out <> "" ->
  exists w',
    on_translate tr LANGUAGES title input now w = (Returns tt, w')
    /\ history (state w')
       = history (state w)
         ++ [ {| original := input; translated := out;
                 source := source_lang (state w); target := target_lang (state w);
                 timestamp := now |} ]
    /\ source_lang (state w') = source_lang (state w)
    /\ target_lang (state w') = target_lang (state w)
    /\ added w1 w'
       = StSuccess "Translation complete!"
         :: (if String.eqb src "auto" then
               [StInfo ("Detected Source Language: **"
                        +:+ title (Py.dict_get LANGUAGES code "Unknown") +:+ "**")]
             else [])
         ++ [StSubheader "Translated Text:"; StCode out].
Proof.
  intros Hs Hd Hpt Hout.
  destruct (perform_translation_shape tr input src dst w)
    as (r & w1' & evs & Hpt' & Hst & _).
  rewrite Hpt in Hpt'. injection Hpt' as <- <-.
  eexists. rewrite (on_translate_truthy tr LANGUAGES title _ _ _ _ _ _ _ _ Hs Hd Hpt Hout).
  split; [reflexivity|]. simpl. rewrite Hst.
  repeat split. now apply added_app.
Qed.

Lemma on_translate_records_witness :
  exists w',
    on_translate echo_translator sample_languages ascii_title "hello"
      "2024-01-01 00:00:00" (fresh_world tt) = (Returns tt, w')
    /\ history (state w')
       = [ {| original := "hello"; translated := "hello";
              source := "Automatic Detection"; target := "urdu";
              timestamp := "2024-01-01 00:00:00" |} ].
Proof.
  destruct (on_translate_records echo_translator sample_languages ascii_title
              "hello" "2024-01-01 00:00:00" (fresh_world tt) "auto" "ur"
              "hello" "en"
              {| service := tt; state := initial_state;
                 trace := [CallDetect "hello"; CallTranslate "hello" "en" "ur"] |})
    as (w' & Hrun & Hlog & _).
  - vm_compute. reflexivity.
  - vm_compute. reflexivity.
  - reflexivity.
  - discriminate.
  - exists w'. split; [exact Hrun | exact Hlog].
Defined.

(** X11: the log only grows at its end, and only the clear button
    empties it.  A click on "Translate" leaves the entries that are
    there and adds at most one; a click on "Clear History" leaves an
    empty log; choosing or swapping languages leaves the log as it is;
    and neither "Translate" nor "Clear History" changes the
    selections. *)
Theorem interactive_run_history {P} (tr : Translator P)
    (LANGUAGES : list (string * string)) (title : string -> string)
    (a : action) (w : World P) :
  let w' := world (interactive_run tr LANGUAGES title a w) in
  match a with
  | ClickTranslate _ _ =>
      (exists suffix, history (state w') = history (state w) ++ suffix
                      /\ length suffix <= 1)
      /\ source_lang (state w') = source_lang (state w)
      /\ target_lang (state w') = target_lang (state w)
  | ClickClear =>
      history (state w') = []
      /\ source_lang (state w') = source_lang (state w)
      /\ target_lang (state w') = target_lang (state w)
  | _ => history (state w') = history (state w)
  end.
Proof.
  assert (Hshow : forall w0 : World P,
             state (world (show_history false w0)) = state w0).
  { intros w0. rewrite show_history_run. now destruct (history (state w0)). }
  destruct a as [name|name| |input now|]; simpl; unfold bind, get_state; simpl.
  - destruct (bool_decide (name ∈ lang_options LANGUAGES)); simpl; now rewrite Hshow.
  - destruct (bool_decide (name ∈ lang_values LANGUAGES)); simpl; now rewrite Hshow.
  - rewrite Hshow. simpl. unfold swap_languages. simpl.
    now destruct (String.eqb (source_lang (state w)) "Automatic Detection").
  - pose proof (on_translate_log tr LANGUAGES title input now w) as Hlog.
    simpl in Hlog.
    assert (Hsel : source_lang (state (world (on_translate tr LANGUAGES title input now w)))
                   = source_lang (state w)
                   /\ target_lang (state (world (on_translate tr LANGUAGES title input now w)))
                      = target_lang (state w)).
    { unfold on_translate, bind, get_state, getitem. simpl.
      destruct (lang_codes LANGUAGES !! source_lang (state w)) as [src|]; [|now split].
      simpl.
      destruct (lang_codes LANGUAGES !! target_lang (state w)) as [dst|]; [|now split].
      simpl.
      destruct (perform_translation_shape tr input src dst w)
        as (r & w1 & evs & -> & Hst & _).
      destruct r as [[[|c out]|] code]; simpl; try (now rewrite Hst).
      unfold emit, ret. destruct (String.eqb src "auto"); simpl; now rewrite Hst. }
    destruct (on_translate tr LANGUAGES title input now w) as [[[]|e] w1]; simpl in *.
    + rewrite Hshow. split; [|exact Hsel].
      destruct Hlog as [-> | (e & -> & _)].
      * exists []. split; [now rewrite app_nil_r | simpl; lia].
      * exists [e]. split; [reflexivity | simpl; lia].
    + split; [|exact Hsel].
      destruct Hlog as [-> | (e' & -> & _)].
      * exists []. split; [now rewrite app_nil_r | simpl; lia].
      * exists [e']. split; [reflexivity | simpl; lia].
  - rewrite show_history_run. destruct (history (state w)) eqn:Hh; simpl; auto.
Qed.

(** X12: a detected code the table does not list does not stop the
    handler: with the source on ["Automatic Detection"], the
    translation is shown and logged as usual, and the language is
    announced as the title form of ["Unknown"]. *)
Theorem on_translate_unknown_language {P} (tr : Translator P)
    (LANGUAGES : list (string * string)) (title : string -> string)
    input now (w : World P) dst code p1 out p2 :
  source_lang (state w) = "Automatic Detection" ->
  lang_codes LANGUAGES !! target_lang (state w) = Some dst ->
  Py.blank input = false ->
  detect tr input (service w) = (Ok code, p1) ->
  translate tr input code dst p1 = (Ok out, p2) ->
  out <> "" ->
  code ∉ map fst LANGUAGES ->
  exists w',
    on_translate tr LANGUAGES title input now w = (Returns tt, w')
    /\ added w w'
       = [CallDetect input; CallTranslate input code dst;
          StSuccess "Translation complete!";
          StInfo ("Detected Source Language: **" +:+ title "Unknown" +:+ "**");
          StSubheader "Translated Text:"; StCode out]
    /\ length (history (state w')) = S (length (history (state w))).
Proof.
  intros Hsrc Hd Hb Hdet Htr Hout Hcode.
  assert (Hs : lang_codes LANGUAGES !! source_lang (state w) = Some "auto").
  { rewrite Hsrc. apply lang_codes_automatic. }
  pose proof (perform_translation_detected tr _ _ _ _ _ _ _ Hb Hdet Htr) as Hpt.
  eexists.
  rewrite (on_translate_truthy tr LANGUAGES title _ _ _ _ _ _ _ _ Hs Hd Hpt Hout).
  split; [reflexivity|]. simpl. rewrite (dict_get_absent _ _ _ Hcode). split.
  - apply added_app. simpl. now rewrite <- app_assoc.
  - rewrite length_app. simpl. lia.
Qed.

Lemma on_translate_unknown_language_witness :
  exists w',
    on_translate klingon_translator sample_languages ascii_title "hello"
      "2024-01-01 00:00:00" (fresh_world tt) = (Returns tt, w')
    /\ added (fresh_world tt) w'
       = [CallDetect "hello"; CallTranslate "hello" "tlh" "ur";
          StSuccess "Translation complete!";
          StInfo "Detected Source Language: **Unknown**";
          StSubheader "Translated Text:"; StCode "nuqneH"]
    /\ length (history (state w')) = 1.
Proof.
  refine (on_translate_unknown_language klingon_translator sample_languages
            ascii_title "hello" "2024-01-01 00:00:00" (fresh_world tt)
            "ur" "tlh" tt "nuqneH" tt eq_refl _ eq_refl eq_refl eq_refl _ _).
  - vm_compute. reflexivity.
  - discriminate.
  - apply (bool_decide_unpack _). vm_compute. exact I.
Defined.

(** ** Further properties of the batch *)

Section BatchRuns.

Context {P : Type} (tr : Translator P).

(** What one call may ask, with the trace written as an extension. *)
Lemma perform_translation_asks text src dest (w : World P) :
  exists r w' evs,
    perform_translation tr text src dest w = (Returns r, w')
    /\ trace w' = trace w ++ evs
    /\ length (provider_calls evs) <= 2
    /\ Forall (as_given text src dest) evs.
Proof.
  destruct (perform_translation_runs tr text src dest w)
    as (r & w' & evs & Hrun & _ & Htr & Hcases).
  exists r, w', evs. split; [exact Hrun|]. split; [exact Htr|].
  destruct Hcases as
    [(_ & _ & ->) | [(_ & -> & code & out & _ & ->) | [(_ & -> & m & _ & ->) |
    [(_ & -> & code & m & _ & ->) | [(_ & Hs & out & _ & ->) | (_ & Hs & m & _ & ->)]]]]];
    simpl; (split; [lia|]); repeat constructor; simpl; auto; try congruence.
Qed.

Lemma provider_calls_app (l1 l2 : list event) :
  provider_calls (l1 ++ l2) = provider_calls l1 ++ provider_calls l2.
Proof. apply List.filter_app. Qed.

Lemma from_column_more column c dest ev :
  from_column column dest ev -> from_column (c :: column) dest ev.
Proof.
  destruct ev; simpl; auto.
  - intros (c' & Hin & Heq). exists c'. split; [now right | exact Heq].
  - intros [(c' & Hin & Heq) Hd]. split; [|exact Hd].
    exists c'. split; [now right | exact Heq].
Qed.

(** The loop as an extension of the trace: at most two provider calls
    per row, each about a cell of the rows and into the target code. *)
Lemma translate_rows_trace n dest rows : forall i acc (w : World P),
  n <> 0 ->
  exists outs w' evs,
    translate_rows tr n dest i rows acc w = (Returns outs, w')
    /\ trace w' = trace w ++ evs
    /\ length (provider_calls evs) <= 2 * length rows
    /\ Forall (from_column rows dest) evs.
Proof.
  induction rows as [|text rows IH]; intros i acc w Hn.
  - exists acc, w, []. simpl. rewrite app_nil_r. repeat split; auto.
  - destruct (translate_rows_cons tr n dest i text rows acc w Hn)
      as (r & w1 & evs0 & Hpt & _ & _ & _ & ->).
    destruct (perform_translation_asks (Py.str text) "auto" dest w)
      as (r' & w1' & evs1 & Hpt' & Htr1 & Hcalls & Hgiven).
    rewrite Hpt in Hpt'. injection Hpt' as <- <-.
    edestruct (IH (S i) (acc ++ [Py.or_else (fst r) "Error"])) as
      (outs & w' & evs & -> & Htr & Hcount & Hfrom); [exact Hn|].
    exists outs, w'. eexists. split; [reflexivity|]. split.
    + rewrite Htr. simpl trace. rewrite Htr1, <- !app_assoc. reflexivity.
    + split.
      * rewrite !provider_calls_app, !length_app. simpl. lia.
      * apply Forall_app. split; [|apply Forall_app; split].
        -- eapply Forall_impl; [exact Hgiven|].
           intros ev Hev. destruct ev; simpl in *; auto.
           ++ exists text. split; [left | symmetry; apply Hev].
           ++ destruct Hev as (-> & -> & _). split; [|reflexivity].
              exists text. split; [left | reflexivity].
        -- repeat constructor.
        -- eapply Forall_impl; [exact Hfrom|].
           intros ev. apply from_column_more.
Qed.

(** A blank cell costs nothing: over rows that are all blank the loop
    records ["Error"] for each and never calls the provider. *)
Lemma translate_rows_blank n dest rows : forall i acc (w : World P),
  n <> 0 ->
  Forall (fun c => Py.blank (Py.str c) = true) rows ->
  exists w' evs,
    translate_rows tr n dest i rows acc w
    = (Returns (acc ++ replicate (length rows) "Error"), w')
    /\ service w' = service w
    /\ trace w' = trace w ++ evs
    /\ provider_calls evs = [].
Proof.
  induction rows as [|text rows IH]; intros i acc w Hn Hblank.
  - exists w, []. simpl. rewrite !app_nil_r. repeat split.
  - apply Forall_cons in Hblank as [Hb Hblank].
    destruct (translate_rows_cons tr n dest i text rows acc w Hn)
      as (r & w1 & evs0 & Hpt & _ & _ & _ & ->).
    rewrite perform_translation_blank in Hpt by exact Hb.
    injection Hpt as <- <-.
    edestruct (IH (S i) (acc ++ [Py.or_else (fst (@None string, @None string)) "Error"]))
      as (w' & evs & -> & Hsv & Htr & Hcalls); [exact Hn | exact Hblank |].
    exists w'. eexists. split; [|split; [|split]].
    + simpl. now rewrite <- app_assoc.
    + exact Hsv.
    + rewrite Htr. simpl trace. rewrite <- app_assoc. reflexivity.
    + rewrite provider_calls_app, Hcalls. reflexivity.
Qed.

End BatchRuns.

Lemma translate_file_run {P} (tr : Translator P) column dest (w : World P)
    translations w1 :
  translate_rows tr (length column) dest 0 column []
    (after w (StProgress 0 "Translating...")) = (Returns translations, w1) ->
  translate_file tr column dest w
  = (Returns ("translated_" +:+ dest, translations),
     after w1 (StSuccess "Batch translation completed!")).
Proof.
  intros Hrun. unfold translate_file, bind. unfold emit at 1. simpl.
  fold (after w (StProgress 0 "Translating...")). now rewrite Hrun.
Qed.

(** Between two rows: what the resolver added for the row, and its
    progress report. *)
Lemma rows_done_added {P} (tr : Translator P) column dest i text (w : World P) :
  column !! i = Some text ->
  exists evs report,
    added (rows_done tr column dest i w) (rows_done tr column dest (S i) w)
    = evs ++ [report]
    /\ is_call report = false
    /\ as_given (Py.str text) "auto" dest report
    /\ length (provider_calls evs) <= 2
    /\ Forall (as_given (Py.str text) "auto" dest) evs.
Proof.
  intros Hi.
  destruct (rows_done_row tr column dest i text w Hi) as (r & w1 & Hpt & -> & _).
  destruct (perform_translation_asks tr (Py.str text) "auto" dest
              (rows_done tr column dest i w))
    as (r' & w1' & evs & Hpt' & Htr & Hcalls & Hgiven).
  rewrite Hpt in Hpt'. injection Hpt' as <- <-.
  exists evs. eexists. split.
  - apply added_app. simpl. rewrite Htr, <- app_assoc. reflexivity.
  - repeat split; auto.
Qed.

(** X13: a batch never touches the session state (no entry reaches the
    history, the selections stay) and asks the provider only about
    texts of cells of the column and only for translations into the
    target code of the batch.  Each row costs at most two provider
    calls, both about the text of that row's own cell, so the batch
    costs at most two calls per row in all. *)
Theorem translate_file_budget {P} (tr : Translator P) column dest (w : World P) :
  let w' := world (translate_file tr column dest w) in
  state w' = state w
  /\ length (provider_calls (added w w')) <= 2 * length column
  /\ Forall (from_column column dest) (added w w')
  /\ (forall i text,
         column !! i = Some text ->
         let row := added (rows_done tr column dest i w)
                      (rows_done tr column dest (S i) w) in
         length (provider_calls row) <= 2
         /\ Forall (as_given (Py.str text) "auto" dest) row).
Proof.
  cbv zeta. split; [|split; [|split]].
  - destruct (translate_file_spec tr column dest w)
      as (translations & w1 & _ & -> & _ & _ & Hst & _). exact Hst.
  - destruct column as [|text column].
    + erewrite added_app; [|simpl; rewrite <- app_assoc; reflexivity].
      simpl. lia.
    + set (col := text :: column).
      destruct (translate_rows_trace tr (length col) dest col 0 []
                  (after w (StProgress 0 "Translating...")))
        as (outs & w1 & evs & Hrun & Htr & Hcount & Hfrom); [discriminate|].
      rewrite (translate_file_run tr col dest w outs w1 Hrun). simpl world.
      erewrite added_app;
        [|simpl; rewrite Htr; simpl; rewrite <- !app_assoc; reflexivity].
      rewrite !provider_calls_app, !length_app.
      change (provider_calls [StProgress 0 "Translating..."]) with (@nil event).
      change (provider_calls [StSuccess "Batch translation completed!"])
        with (@nil event).
      cbn [length]. lia.
  - destruct column as [|text column].
    + erewrite added_app; [|simpl; rewrite <- app_assoc; reflexivity].
      repeat constructor.
    + set (col := text :: column).
      destruct (translate_rows_trace tr (length col) dest col 0 []
                  (after w (StProgress 0 "Translating...")))
        as (outs & w1 & evs & Hrun & Htr & Hcount & Hfrom); [discriminate|].
      rewrite (translate_file_run tr col dest w outs w1 Hrun). simpl world.
      erewrite added_app;
        [|simpl; rewrite Htr; simpl; rewrite <- !app_assoc; reflexivity].
      apply Forall_app. split; [repeat constructor|].
      apply Forall_app. split; [exact Hfrom | repeat constructor].
  - intros i text Hi.
    destruct (rows_done_added tr column dest i text w Hi)
      as (evs & report & -> & Hreport & Hgiven' & Hcalls & Hgiven).
    split.
    + rewrite provider_calls_app, length_app. simpl. rewrite Hreport. simpl. lia.
    + apply Forall_app. split; [exact Hgiven | now constructor].
Qed.

Lemma translate_file_budget_witness :
  length (provider_calls
            (added (rows_done phrasebook_translator
                      [Py.CellStr "hello"; Py.CellStr ""] "es" 0 (fresh_world tt))
               (rows_done phrasebook_translator
                  [Py.CellStr "hello"; Py.CellStr ""] "es" 1 (fresh_world tt))))
  <= 2
  /\ Forall (as_given "hello" "auto" "es")
       (added (rows_done phrasebook_translator
                 [Py.CellStr "hello"; Py.CellStr ""] "es" 0 (fresh_world tt))
          (rows_done phrasebook_translator
             [Py.CellStr "hello"; Py.CellStr ""] "es" 1 (fresh_world tt))).
Proof.
  exact (proj2 (proj2 (proj2
           (translate_file_budget phrasebook_translator
              [Py.CellStr "hello"; Py.CellStr ""] "es" (fresh_world tt))))
           0 (Py.CellStr "hello") eq_refl).
Defined.

(** X14: blank cells cost nothing.  Over a column whose cells are all
    blank once coerced to text, the batch records ["Error"] for every
    row, leaves the service as it found it and makes no provider call
    at all. *)
Theorem translate_file_blank {P} (tr : Translator P) column dest (w : World P) :
  Forall (fun c => Py.blank (Py.str c) = true) column ->
  exists w',
    translate_file tr column dest w
    = (Returns ("translated_" +:+ dest, replicate (length column) "Error"), w')
    /\ service w' = service w
    /\ provider_calls (added w w') = [].
Proof.
  intros Hblank. destruct column as [|text column].
  - eexists. split; [reflexivity|]. split; [reflexivity|].
    erewrite added_app; [|simpl; rewrite <- app_assoc; reflexivity].
    reflexivity.
  - set (col := text :: column) in *.
    destruct (translate_rows_blank tr (length col) dest col 0 []
                (after w (StProgress 0 "Translating...")))
      as (w1 & evs & Hrun & Hsv & Htr & Hcalls); [discriminate | exact Hblank |].
    simpl app in Hrun.
    exists (after w1 (StSuccess "Batch translation completed!")).
    split; [now apply translate_file_run|]. split; [exact Hsv|].
    erewrite added_app;
      [|simpl; rewrite Htr; simpl; rewrite <- !app_assoc; reflexivity].
    simpl. rewrite provider_calls_app, Hcalls. reflexivity.
Qed.

Lemma translate_file_blank_witness :
  exists w',
    translate_file echo_translator
      [Py.CellStr ""; Py.CellStr "   "; Py.CellStr ideographic_space] "fr"
      (fresh_world tt)
    = (Returns ("translated_fr", ["Error"; "Error"; "Error"]), w')
    /\ service w' = tt
    /\ provider_calls (added (fresh_world tt) w') = [].
Proof.
  apply (translate_file_blank echo_translator
           [Py.CellStr ""; Py.CellStr "   "; Py.CellStr ideographic_space] "fr"
           (fresh_world tt)).
  repeat constructor.
Defined.

(** The answer of a call depends on the world only through the
    service. *)
Lemma perform_translation_same_service {P} (tr : Translator P) text src dest
    (w v : World P) :
  service w = service v ->
  result (perform_translation tr text src dest w)
  = result (perform_translation tr text src dest v).
Proof.
  intros Hsv. unfold perform_translation.
  destruct (negb (Py.truthy text) || negb (Py.truthy (Py.strip text)));
    [reflexivity|].
  unfold try_except, bind, translator_detect, translator_translate,
    call_provider, ret, emit.
  destruct (String.eqb src "auto"); simpl; rewrite Hsv.
  - destruct (detect tr text (service v)) as [[code|m] p1]; simpl; [|reflexivity].
    destruct (translate tr text code dest p1) as [[out|m] p2]; reflexivity.
  - destruct (translate tr text src dest (service v)) as [[out|m] p1]; reflexivity.
Qed.

Lemma translate_rows_stateless (tr : Translator unit) n dest rows :
  forall i acc (w : World unit),
  n <> 0 ->
  exists w',
    translate_rows tr n dest i rows acc w
    = (Returns (acc ++ map (row_outcome tr dest) rows), w').
Proof.
  induction rows as [|text rows IH]; intros i acc w Hn.
  - exists w. simpl. now rewrite app_nil_r.
  - destruct (translate_rows_cons tr n dest i text rows acc w Hn)
      as (r & w1 & evs0 & Hpt & _ & _ & _ & ->).
    edestruct (IH (S i) (acc ++ [Py.or_else (fst r) "Error"])) as (w' & ->);
      [exact Hn|].
    exists w'. rewrite <- app_assoc. simpl. do 3 f_equal.
    unfold row_outcome.
    rewrite (perform_translation_same_service tr _ _ _ (fresh_world tt) w)
      by now destruct (service w).
    now rewrite Hpt.
Qed.

(** X15: with a service that keeps no state between calls, every
    translation of a batch depends on its own cell alone: the new
    column is the image of the input column row by row, whatever
    happened on the other rows, so the batch of two columns put end to
    end is the two batches put end to end. *)
Theorem translate_file_rowwise (tr : Translator unit) dest (w : World unit) :
  (forall column,
      result (translate_file tr column dest w)
      = Returns ("translated_" +:+ dest, map (row_outcome tr dest) column))
  /\ (forall column1 column2 out1 out2 out,
         result (translate_file tr column1 dest w) = Returns ("translated_" +:+ dest, out1) ->
         result (translate_file tr column2 dest w) = Returns ("translated_" +:+ dest, out2) ->
         result (translate_file tr (column1 ++ column2) dest w)
         = Returns ("translated_" +:+ dest, out) ->
         out = out1 ++ out2).
Proof.
  assert (Hmap : forall column,
             result (translate_file tr column dest w)
             = Returns ("translated_" +:+ dest, map (row_outcome tr dest) column)).
  { intros [|text column]; [reflexivity|].
    set (col := text :: column).
    destruct (translate_rows_stateless tr (length col) dest col 0 []
                (after w (StProgress 0 "Translating..."))) as (w1 & Hrun);
      [discriminate|].
    now rewrite (translate_file_run tr col dest w _ w1 Hrun). }
  split; [exact Hmap|].
  intros column1 column2 out1 out2 out H1 H2 H.
  rewrite Hmap in H1, H2, H.
  injection H1 as <-. injection H2 as <-. injection H as <-.
  apply map_app.
Qed.

Lemma translate_file_rowwise_witness :
  result (translate_file phrasebook_translator
            ([Py.CellStr "hello"; Py.CellStr ""] ++ [Py.CellStr "world"]) "es"
            (fresh_world tt))
  = Returns ("translated_es", ["hola"; "Error"] ++ ["mundo"]).
Proof.
  pose proof (translate_file_rowwise phrasebook_translator "es" (fresh_world tt))
    as [Hmap Happ].
  rewrite Hmap.
  rewrite (Happ [Py.CellStr "hello"; Py.CellStr ""] [Py.CellStr "world"]
             ["hola"; "Error"] ["mundo"] _ eq_refl eq_refl (Hmap _)).
  reflexivity.
Defined.

(** X16: on the batch page a target name of the table never fails:
    the batch runs and its column is named after a code the table
    gives that name; a name the table does not have raises [KeyError]
    before anything is sent or shown.  ["Automatic Detection"] is such
    a name unless the table lists it. *)
Theorem batch_page_target {P} (tr : Translator P) (LANGUAGES : list (string * string))
    target_lang_name column (w : World P) :
  (target_lang_name ∈ lang_values LANGUAGES ->
   exists code translations w',
     batch_page tr LANGUAGES target_lang_name column w
     = (Returns ("translated_" +:+ code, translations), w')
     /\ (code, target_lang_name) ∈ LANGUAGES
     /\ length translations = length column)
  /\ (target_lang_name ∉ lang_values LANGUAGES ->
      batch_page tr LANGUAGES target_lang_name column w
      = (Raises (KeyError target_lang_name), w)).
Proof.
  unfold batch_page, bind, getitem. split.
  - intros Hin. destruct (name_to_code_present LANGUAGES _ Hin) as (code & -> & Hrow).
    simpl. destruct (translate_file_spec tr column code w)
      as (translations & w1 & _ & -> & Hlen & _).
    eauto 6.
  - intros Hout. now rewrite name_to_code_absent.
Qed.

Lemma batch_page_target_witness :
  (exists code translations w',
      batch_page phrasebook_translator sample_languages "spanish"
        [Py.CellStr "hello"] (fresh_world tt)
      = (Returns ("translated_" +:+ code, translations), w')
      /\ (code, "spanish") ∈ sample_languages
      /\ length translations = 1)
  /\ batch_page phrasebook_translator sample_languages "Automatic Detection"
       [Py.CellStr "hello"] (fresh_world tt)
     = (Raises (KeyError "Automatic Detection"), fresh_world tt).
Proof.
  split.
  - apply (proj1 (batch_page_target phrasebook_translator sample_languages "spanish"
                    [Py.CellStr "hello"] (fresh_world tt))).
    apply (bool_decide_unpack _). vm_compute. exact I.
  - apply (proj2 (batch_page_target phrasebook_translator sample_languages
                    "Automatic Detection" [Py.CellStr "hello"] (fresh_world tt))).
    apply (bool_decide_unpack _). vm_compute. exact I.
Defined.

(** X17: a named source language is taken at its word: when the source
    selection is a language of the table (and the table does not use
    ["auto"] as a code), the "Translate" handler neither calls
    [detect] nor announces a detected language. *)
Theorem on_translate_named_source {P} (tr : Translator P)
    (LANGUAGES : list (string * string)) (title : string -> string)
    input now (w : World P) :
  source_lang (state w) ∈ lang_values LANGUAGES ->
  source_lang (state w) <> "Automatic Detection" ->
  "auto" ∉ map fst LANGUAGES ->
  Forall no_detection
    (added w (world (on_translate tr LANGUAGES title input now w))).
Proof.
  intros Hsrc Hne Hauto.
  destruct (name_to_code_present LANGUAGES _ Hsrc) as (src & Hs & Hrow).
  rewrite <- lang_codes_other in Hs by exact Hne.
  assert (Hsrc' : src <> "auto").
  { intros ->. apply Hauto. apply (list_elem_of_fmap_2 fst) in Hrow. exact Hrow. }
  destruct (lang_codes LANGUAGES !! target_lang (state w)) as [dst|] eqn:Hd.
  2:{ unfold on_translate, bind, get_state, getitem. simpl.
      rewrite Hs. simpl. rewrite Hd. simpl. rewrite added_nothing. constructor. }
  destruct (perform_translation_runs tr input src dst w)
    as (r & w1 & evs & Hpt & Hst & Htr & Hcases).
  assert (Hevs : Forall no_detection evs
                 /\ (r = (None, None) \/ exists out code, r = (Some out, Some code))).
  { destruct Hcases as
      [(_ & -> & ->) | [(_ & He & _) | [(_ & He & _) |
      [(_ & He & _) | [(_ & _ & out & -> & ->) | (_ & _ & m & -> & ->)]]]]];
      try contradiction; split; eauto; repeat constructor. }
  destruct Hevs as [Hevs [-> | (out & code & ->)]].
  - erewrite on_translate_falsy by (try eassumption; reflexivity).
    simpl. now rewrite (added_app _ _ _ Htr).
  - destruct out as [|c out].
    + erewrite on_translate_falsy by (try eassumption; reflexivity).
      simpl. now rewrite (added_app _ _ _ Htr).
    + erewrite on_translate_truthy by (try eassumption; discriminate).
      simpl. erewrite added_app; [|simpl; rewrite Htr, <- app_assoc; reflexivity].
      apply Forall_app. split; [exact Hevs|].
      apply String.eqb_neq in Hsrc'. rewrite Hsrc'. repeat constructor.
Qed.

Lemma on_translate_named_source_witness :
  Forall no_detection
    (added {| service := tt; state := swap_languages initial_state; trace := [] |}
       (world (on_translate echo_translator sample_languages ascii_title "hello"
                 "2024-01-01 00:00:00"
                 {| service := tt; state := swap_languages initial_state;
                    trace := [] |}))).
Proof.
  apply (on_translate_named_source echo_translator sample_languages ascii_title
           "hello" "2024-01-01 00:00:00"
           {| service := tt; state := swap_languages initial_state; trace := [] |}).
  - apply (bool_decide_unpack _). vm_compute. exact I.
  - simpl. discriminate.
  - apply (bool_decide_unpack _). vm_compute. exact I.
Defined.
